(** * brains-py: the simulated processor [SurrogateModel]

    A shallow embedding of [brainspy/processors/simulation/processor.py].
    The Python object is a record of optional attributes (an attribute that
    was never assigned is [None] here and raises [AttributeError] on read),
    exceptions are an explicit result type, and every method is a
    computation over a [world]: the object, the warnings emitted so far and
    the number of random draws taken by noise models. *)

From Stdlib Require Import QArith Ascii.
From stdpp Require Import base option list gmap strings pretty.

Open Scope string_scope.

(** ** The numeric backend

    Tensor elements are kept abstract: the processor only multiplies, adds,
    subtracts and compares them.  No law of arithmetic is assumed, so every
    statement proved below holds for whatever arithmetic the backend has. *)

Class Scalar (R : Type) := {
  s_add : R → R → R;
  s_sub : R → R → R;
  s_mul : R → R → R;
  s_leb : R → R → bool
}.

#[global] Instance Q_scalar : Scalar Q := {|
  s_add := Qplus;
  s_sub := Qminus;
  s_mul := Qmult;
  s_leb := Qle_bool
|}.

(** ** Exceptions and results *)

Inductive exn :=
| AttributeError (attr : string)
| KeyError (key : string)
| TypeError
| IndexError
| RuntimeError
| FileNotFoundError
| ConfigurationError
| UnsupportedRank.

Inductive result (A : Type) :=
| Ok (a : A)
| Raise (e : exn).
Arguments Ok {A} a.
Arguments Raise {A} e.

#[global] Instance result_ret : MRet result := @Ok.
#[global] Instance result_bind : MBind result := λ A B f r,
  match r with
  | Ok a => f a
  | Raise e => Raise e
  end.
#[global] Instance result_fmap : FMap result := λ A B f r,
  match r with
  | Ok a => Ok (f a)
  | Raise e => Raise e
  end.

Section Processor.
Context {R : Type} `{Scalar R}.

(** ** Tensors of rank 0, 1 and 2 *)

Inductive tensor :=
| T0 (r : R)
| T1 (v : list R)
| T2 (rows : list (list R)).

(** Broadcasting of two vectors: equal lengths combine pointwise, a vector of
    length one is stretched, anything else is a shape error. *)
Definition bc1 (op : R → R → R) (u v : list R) : result (list R) :=
  if decide (length u = length v) then Ok (zip_with op u v)
  else match u, v with
       | [a], _ => Ok (map (op a) v)
       | _, [b] => Ok (map (λ x, op x b) u)
       | _, _ => Raise RuntimeError
       end.

Definition bc2 (op : R → R → R) (a b : list (list R)) : result (list (list R)) :=
  if decide (length a = length b)
  then mapM (λ p : list R * list R, bc1 op p.1 p.2) (zip a b)
  else match a, b with
       | [u], _ => mapM (bc1 op u) b
       | _, [v] => mapM (λ u, bc1 op u v) a
       | _, _ => Raise RuntimeError
       end.

Definition tensor_binop (op : R → R → R) (a b : tensor) : result tensor :=
  match a, b with
  | T0 x, T0 y => Ok (T0 (op x y))
  | T0 x, T1 v => Ok (T1 (map (op x) v))
  | T1 u, T0 y => Ok (T1 (map (λ x, op x y) u))
  | T0 x, T2 m => Ok (T2 (map (map (op x)) m))
  | T2 m, T0 y => Ok (T2 (map (map (λ x, op x y)) m))
  | T1 u, T1 v => T1 <$> bc1 op u v
  | T1 u, T2 m => T2 <$> mapM (bc1 op u) m
  | T2 m, T1 v => T2 <$> mapM (λ u, bc1 op u v) m
  | T2 m, T2 n => T2 <$> bc2 op m n
  end.

Definition tensor_map (f : R → R) (t : tensor) : tensor :=
  match t with
  | T0 r => T0 (f r)
  | T1 v => T1 (map f v)
  | T2 m => T2 (map (map f) m)
  end.

(** [t.unsqueeze(dim=1)] *)
Definition unsqueeze1 (t : tensor) : result tensor :=
  match t with
  | T0 _ => Raise IndexError
  | T1 v => Ok (T2 (map (λ x, [x]) v))
  | T2 _ => Raise UnsupportedRank
  end.

(** [torch.cat((a, b), dim=1)] *)
Definition cat1 (a b : tensor) : result tensor :=
  match a, b with
  | T2 m, T2 n =>
      if decide (length m = length n) then Ok (T2 (zip_with app m n))
      else Raise RuntimeError
  | T0 _, _ | _, T0 _ => Raise RuntimeError
  | _, _ => Raise IndexError
  end.

(** [torch.clamp(x, min=lo, max=hi)]: the lower bound first, then the upper. *)
Definition clamp (lo hi x : R) : R :=
  let y := if s_leb lo x then x else lo in
  if s_leb y hi then y else hi.

Definition torch_clamp (x : tensor) (lo hi : R) : tensor :=
  tensor_map (clamp lo hi) x.

(** ** Python values *)

#[warnings="-register-all"] Inductive pyval :=
| PNone
| PStr (s : string)
| PNum (r : R)
| PTensor (t : tensor)
| PDict (d : gmap string pyval).

Definition is_none (v : pyval) : bool :=
  match v with PNone => true | _ => false end.

(** [value == "default"] *)
Definition eq_default (v : pyval) : bool :=
  match v with PStr s => bool_decide (s = "default") | _ => false end.

(** [d[k]] for a string key *)
Definition subscript (v : pyval) (k : string) : result pyval :=
  match v with
  | PDict d => match d !! k with Some x => Ok x | None => Raise (KeyError k) end
  | PNone | PNum _ => Raise TypeError
  | PStr _ => Raise TypeError
  | PTensor _ => Raise IndexError
  end.

(** [v[i]] for an integer index *)
Definition index (v : pyval) (i : nat) : result pyval :=
  match v with
  | PTensor (T1 l) =>
      match l !! i with Some x => Ok (PTensor (T0 x)) | None => Raise IndexError end
  | PTensor (T2 m) =>
      match m !! i with Some r => Ok (PTensor (T1 r)) | None => Raise IndexError end
  | PTensor (T0 _) => Raise IndexError
  | PStr s =>
      match String.get i s with
      | Some c => Ok (PStr (String c EmptyString))
      | None => Raise IndexError
      end
  | PDict _ => Raise (KeyError (pretty i))
  | PNone | PNum _ => Raise TypeError
  end.

(** [len(v)] *)
Definition len (v : pyval) : result nat :=
  match v with
  | PTensor (T1 l) => Ok (length l)
  | PTensor (T2 m) => Ok (length m)
  | PStr s => Ok (String.length s)
  | PDict d => Ok (size d)
  | PTensor (T0 _) | PNone | PNum _ => Raise TypeError
  end.

(** A number where torch expects a scalar argument: a Python number or a
    zero-dimensional tensor. *)
Definition as_scalar (v : pyval) : result R :=
  match v with
  | PNum r | PTensor (T0 r) => Ok r
  | _ => Raise TypeError
  end.

(** The bounds [c[0]] and [c[1]] as [torch.clamp] receives them: both are
    looked up before either is checked to be a scalar. *)
Definition bounds (c : pyval) : result (R * R) :=
  v0 ← index c 0;
  v1 ← index c 1;
  lo ← as_scalar v0;
  hi ← as_scalar v1;
  Ok (lo, hi).

(** [x * a] for a tensor [x] and the Python value [a]. *)
Definition tensor_mul (x : tensor) (a : pyval) : result tensor :=
  match a with
  | PNum r => Ok (tensor_map (λ y, s_mul y r) x)
  | PTensor t => tensor_binop s_mul x t
  | PNone | PStr _ | PDict _ => Raise TypeError
  end.

(** Modelled from the spec: [TorchUtils.get_tensor_from_list] lives in
    [brainspy/utils/pytorch.py], which is not part of the sources at hand.
    The spec describes it as the conversion of a numeric value or array to
    the tensor representation. *)
Definition get_tensor_from_list (v : pyval) : result tensor :=
  match v with
  | PNum r => Ok (T0 r)
  | PTensor t => Ok t
  | PNone | PStr _ | PDict _ => Raise TypeError
  end.

(** ** The object and its world *)

Record NeuralNetworkModel := {
  info : option pyval;
  net : tensor → tensor
}.

Record NoiseModel := {
  perturb : nat → tensor → tensor
}.

Record SurrogateModel := {
  model : option NeuralNetworkModel;
  voltage_ranges : option tensor;
  amplification : option pyval;
  output_clipping : option pyval;
  noise : option (option NoiseModel)
}.

Record world := {
  self : SurrogateModel;
  warned : list string;
  draws : nat
}.

Definition M (A : Type) : Type := world → result A * world.

#[global] Instance M_ret : MRet M := λ A a w, (Ok a, w).
#[global] Instance M_bind : MBind M := λ A B f m w,
  match m w with
  | (Ok a, w') => f a w'
  | (Raise e, w') => (Raise e, w')
  end.

Definition lift {A} (r : result A) : M A := λ w, (r, w).

Definition getattr {A} (name : string) (proj : SurrogateModel → option A) : M A :=
  λ w, match proj (self w) with
       | Some a => (Ok a, w)
       | None => (Raise (AttributeError name), w)
       end.

(** The world with the object changed by [f]. *)
Definition with_self (f : SurrogateModel → SurrogateModel) (w : world) : world :=
  {| self := f (self w); warned := warned w; draws := draws w |}.

(** An assignment to an attribute of [self]. *)
Definition update (f : SurrogateModel → SurrogateModel) : M unit :=
  λ w, (Ok tt, with_self f w).

Definition warn (msg : string) : M unit :=
  λ w, (Ok tt, {| self := self w; warned := warned w ++ [msg]; draws := draws w |}).

(** Calling a noise model consumes one random draw. *)
Definition call_noise (n : NoiseModel) (x : tensor) : M tensor :=
  λ w, (Ok (perturb n (draws w) x),
        {| self := self w; warned := warned w; draws := S (draws w) |}).

Definition set_model m (s : SurrogateModel) : SurrogateModel :=
  {| model := Some m; voltage_ranges := voltage_ranges s;
     amplification := amplification s; output_clipping := output_clipping s;
     noise := noise s |}.
Definition set_voltage_ranges_attr v (s : SurrogateModel) : SurrogateModel :=
  {| model := model s; voltage_ranges := Some v;
     amplification := amplification s; output_clipping := output_clipping s;
     noise := noise s |}.
Definition set_amplification_attr v (s : SurrogateModel) : SurrogateModel :=
  {| model := model s; voltage_ranges := voltage_ranges s;
     amplification := Some v; output_clipping := output_clipping s;
     noise := noise s |}.
Definition set_output_clipping_attr v (s : SurrogateModel) : SurrogateModel :=
  {| model := model s; voltage_ranges := voltage_ranges s;
     amplification := amplification s; output_clipping := Some v;
     noise := noise s |}.
Definition set_noise_attr v (s : SurrogateModel) : SurrogateModel :=
  {| model := model s; voltage_ranges := voltage_ranges s;
     amplification := amplification s; output_clipping := output_clipping s;
     noise := Some v |}.

(** [self.model.info] *)
Definition model_info : M pyval :=
  m ← getattr "model" model;
  match info m with
  | Some i => mret i
  | None => lift (Raise (AttributeError "info"))
  end.

(** [i[k1][k2][k3]...] *)
Definition lookup_path (i : pyval) (ks : list string) : result pyval :=
  foldl (λ r k, v ← r; subscript v k) (Ok i) ks.

(** [self.model.info[k1][k2][k3]...] *)
Definition info_path (ks : list string) : M pyval :=
  i ← model_info;
  lift (lookup_path i ks).

(** An object with its model loaded and its three effect attributes
    assigned, in a world with the given warnings and draws. *)
Definition configured (m : NeuralNetworkModel) (vr : option tensor)
    (a c : pyval) (n : option NoiseModel) (log : list string) (k : nat)
    : world :=
  {| self := {| model := Some m; voltage_ranges := vr;
                amplification := Some a; output_clipping := Some c;
                noise := Some n |};
     warned := log; draws := k |}.

(** The value a setter stores for the requested [value]: the metadata entry
    at [ks], as a tensor, when the request is the "default" marker, and the
    request as it is otherwise.  It depends on the object through its model
    only. *)
Definition stored (ks : list string) (value : pyval)
    (mo : option NeuralNetworkModel) : result pyval :=
  if negb (is_none value) && eq_default value then
    match mo with
    | Some m =>
        match info m with
        | Some i => a ← lookup_path i ks; t ← get_tensor_from_list a; Ok (PTensor t)
        | None => Raise (AttributeError "info")
        end
    | None => Raise (AttributeError "model")
    end
  else Ok value.

Definition amplification_path : list string :=
  ["data_info"; "processor"; "driver"; "amplification"].
Definition clipping_path : list string :=
  ["data_info"; "clipping_value"].

(** The rows [o_i - a_i, o_i + a_i] for offsets [o] and amplitudes [a]. *)
Definition ranges_of (o a : list R) : list (list R) :=
  zip_with (λ oi ai, [s_sub oi ai; s_add oi ai]) o a.

(** ** The methods of [SurrogateModel]

    Two collaborators are not part of the sources at hand and are taken as
    parameters: [torch.load], which reads a model from storage, and the
    noise factory [get_noise] of [brainspy/processors/simulation/noise]. *)

Variable torch_load : string → result NeuralNetworkModel.
Variable get_noise : pyval → gmap string pyval → result (option NoiseModel).

Definition _init_voltage_ranges : M unit :=
  o ← info_path ["data_info"; "input_data"; "offset"];
  offset ← lift (get_tensor_from_list o);
  a ← info_path ["data_info"; "input_data"; "amplitude"];
  amplitude ← lift (get_tensor_from_list a);
  min_voltage ← lift (d ← tensor_binop s_sub offset amplitude; unsqueeze1 d);
  max_voltage ← lift (d ← tensor_binop s_add offset amplitude; unsqueeze1 d);
  v ← lift (cat1 min_voltage max_voltage);
  update (set_voltage_ranges_attr v).

Definition load_base_model (filename : string) : M unit :=
  m ← lift (torch_load filename);
  update (set_model m);;
  _init_voltage_ranges.

(** The object before [__init__] has run: no attribute is assigned. *)
Definition blank : SurrogateModel :=
  {| model := None; voltage_ranges := None; amplification := None;
     output_clipping := None; noise := None |}.

Definition __init__ (filename : string) : M unit :=
  load_base_model filename.

Definition set_amplification (value : pyval) : M unit :=
  if negb (is_none value) && eq_default value then
    a ← info_path ["data_info"; "processor"; "driver"; "amplification"];
    t ← lift (get_tensor_from_list a);
    update (set_amplification_attr (PTensor t))
  else
    update (set_amplification_attr value).

Definition set_output_clipping (value : pyval) : M unit :=
  if negb (is_none value) && eq_default value then
    c ← info_path ["data_info"; "clipping_value"];
    t ← lift (get_tensor_from_list c);
    update (set_output_clipping_attr (PTensor t))
  else
    update (set_output_clipping_attr value).

Definition set_effects (amplification output_clipping noise : pyval)
    (kwargs : gmap string pyval) : M unit :=
  set_amplification amplification;;
  set_output_clipping output_clipping;;
  n ← lift (get_noise noise kwargs);
  update (set_noise_attr n).

Definition forward (x : tensor) : M tensor :=
  m ← getattr "model" model;
  let x := net m x in
  a ← getattr "amplification" amplification;
  x ← (if negb (is_none a) then lift (tensor_mul x a) else mret x);
  n ← getattr "noise" noise;
  x ← (match n with Some nm => call_noise nm x | None => mret x end);
  c ← getattr "output_clipping" output_clipping;
  if negb (is_none c) then
    b ← lift (bounds c);
    mret (torch_clamp x b.1 b.2)
  else mret x.

Definition reset_message : string :=
  "Warning: Reset function in Surrogate Model not implemented.".

Definition reset : M unit :=
  warn reset_message.

Definition close : M unit :=
  mret tt.

Definition is_hardware : M bool :=
  mret false.

Definition electrode_message : string :=
  "Unable to retrieve electrode number from the info dictionary, as it has not been loaded yet into the NeuralNetworkModel. No checks with the info dictionary were performed. To proceeed safely, make sure that the 'input_electrode_no' field corresponds to the number of electrodes with which the NeuralNetworkModel that you are intending to use was trained.".

(** The result is [Some n] for the integer [n] and [None] for Python's
    [None]. *)
Definition get_electrode_no : M (option nat) :=
  m ← getattr "model" model;
  match info m with
  | Some i =>
      o ← lift (lookup_path i ["data_info"; "input_data"; "offset"]);
      n ← lift (len o);
      mret (Some n)
  | None =>
      warn electrode_message;;
      mret None
  end.

End Processor.

Arguments tensor R : clear implicits.
Arguments pyval R : clear implicits.
Arguments NeuralNetworkModel R : clear implicits.
Arguments NoiseModel R : clear implicits.
Arguments SurrogateModel R : clear implicits.
Arguments world R : clear implicits.
Arguments M R A : clear implicits.

(** ** The noise factory and the batch configuration, after the spec *)

Section Specified.
Context {R : Type} `{Scalar R}.

(** The random source of the Gaussian model: variance, index of the draw and
    the tensor to perturb. *)
Variable sampler : R → nat → tensor R → tensor R.

(** Modelled from the spec: the noise factory [get_noise] of
    [brainspy/processors/simulation/noise/noise.py] is not part of the
    sources at hand.  After the spec a noise model is selected by a string
    tag plus keyword parameters; the variants are a Gaussian-variance model
    and a none variant, the disabled sentinel gives no noise model, and an
    invalid tag or a malformed parameter is a fatal configuration error. *)
Definition spec_get_noise (noise : pyval R) (kwargs : gmap string (pyval R))
    : result (option (NoiseModel R)) :=
  match noise with
  | PNone => Ok None
  | PStr tag =>
      if bool_decide (tag = "gaussian") then
        match kwargs !! "variance" with
        | Some (PNum v) | Some (PTensor (T0 v)) =>
            Ok (Some {| perturb := sampler v |})
        | _ => Raise ConfigurationError
        end
      else if bool_decide (tag = "none") then Ok None
      else Raise ConfigurationError
  | PNum _ | PTensor _ | PDict _ => Raise ConfigurationError
  end.

(** The resolved runtime state of the spec's EffectPipeline: [None] in a
    slot is the disabled state. *)
Record EffectPipeline := {
  ep_model : NeuralNetworkModel R;
  ep_derived_ranges : tensor R;
  ep_voltage_ranges : option (tensor R);
  ep_amplification : option (tensor R);
  ep_output_clipping : option (tensor R);
  ep_noise : option (NoiseModel R)
}.

Inductive effect := Amplification | OutputClipping | VoltageRanges | Noise.

Definition recognized : list effect :=
  [Amplification; OutputClipping; VoltageRanges; Noise].

Definition key_of (e : effect) : string :=
  match e with
  | Amplification => "amplification"
  | OutputClipping => "output_clipping"
  | VoltageRanges => "voltage_ranges"
  | Noise => "noise"
  end.

Inductive slot_value :=
| STensor (t : option (tensor R))
| SNoise (n : option (NoiseModel R)).

Definition slot (e : effect) (p : EffectPipeline) : slot_value :=
  match e with
  | Amplification => STensor (ep_amplification p)
  | OutputClipping => STensor (ep_output_clipping p)
  | VoltageRanges => STensor (ep_voltage_ranges p)
  | Noise => SNoise (ep_noise p)
  end.

Definition put (e : effect) (v : slot_value) (p : EffectPipeline)
    : EffectPipeline :=
  match e, v with
  | Amplification, STensor t =>
      {| ep_model := ep_model p; ep_derived_ranges := ep_derived_ranges p;
         ep_voltage_ranges := ep_voltage_ranges p; ep_amplification := t;
         ep_output_clipping := ep_output_clipping p; ep_noise := ep_noise p |}
  | OutputClipping, STensor t =>
      {| ep_model := ep_model p; ep_derived_ranges := ep_derived_ranges p;
         ep_voltage_ranges := ep_voltage_ranges p;
         ep_amplification := ep_amplification p;
         ep_output_clipping := t; ep_noise := ep_noise p |}
  | VoltageRanges, STensor t =>
      {| ep_model := ep_model p; ep_derived_ranges := ep_derived_ranges p;
         ep_voltage_ranges := t; ep_amplification := ep_amplification p;
         ep_output_clipping := ep_output_clipping p; ep_noise := ep_noise p |}
  | Noise, SNoise n =>
      {| ep_model := ep_model p; ep_derived_ranges := ep_derived_ranges p;
         ep_voltage_ranges := ep_voltage_ranges p;
         ep_amplification := ep_amplification p;
         ep_output_clipping := ep_output_clipping p; ep_noise := n |}
  | _, _ => p
  end.

(** A malformed explicit value is a configuration error. *)
Definition to_tensor (v : pyval R) : result (tensor R) :=
  match get_tensor_from_list v with
  | Ok t => Ok t
  | Raise _ => Raise ConfigurationError
  end.

(** The sections of the per-run info dictionary, as the unit tests lay it
    out. *)
Definition info_sections : list string :=
  ["activation_electrodes"; "output_electrodes"].

(** The value under a matching key of the info dictionary: at the top level
    or in one of its sections. *)
Definition info_value (info : gmap string (pyval R)) (key : string)
    : option (pyval R) :=
  match info !! key with
  | Some v => Some v
  | None =>
      foldr (λ sec rest,
               match info !! sec with
               | Some (PDict d) =>
                   match d !! key with Some v => Some v | None => rest end
               | _ => rest
               end) None info_sections
  end.

Definition metadata (p : EffectPipeline) (ks : list string) : result (pyval R) :=
  match info (ep_model p) with
  | Some i => lookup_path i ks
  | None => Raise (AttributeError "info")
  end.

(** Modelled from the spec: the value of the "default" marker, per effect
    (driver amplification, clipping value, per-run override of the voltage
    ranges or else the cached derived ranges). *)
Definition default_value (e : effect) (info : gmap string (pyval R))
    (p : EffectPipeline) : result slot_value :=
  match e with
  | Amplification =>
      v ← metadata p ["data_info"; "processor"; "driver"; "amplification"];
      t ← to_tensor v; Ok (STensor (Some t))
  | OutputClipping =>
      v ← metadata p ["data_info"; "clipping_value"];
      t ← to_tensor v; Ok (STensor (Some t))
  | VoltageRanges =>
      match info_value info "voltage_ranges" with
      | Some v => t ← to_tensor v; Ok (STensor (Some t))
      | None => Ok (STensor (Some (ep_derived_ranges p)))
      end
  | Noise => Raise ConfigurationError
  end.

(** Modelled from the spec: the three-tier resolution of one requested
    value (explicit value, "default" marker, disabled sentinel). *)
Definition resolve (e : effect) (info : gmap string (pyval R))
    (value : pyval R) (p : EffectPipeline) : result slot_value :=
  match e, value with
  | Noise, PNone => Ok (SNoise None)
  | Noise, PDict d =>
      match d !! "type" with
      | Some tag => SNoise <$> spec_get_noise tag d
      | None => Raise ConfigurationError
      end
  | Noise, _ => Raise ConfigurationError
  | _, PNone => Ok (STensor None)
  | _, _ =>
      if eq_default value then default_value e info p
      else t ← to_tensor value; Ok (STensor (Some t))
  end.

(** Modelled from the spec: [set_effects_from_dict] is not part of the
    sources at hand (only its unit tests are).  For each recognized key the
    requested value is the one of the configuration dictionary, else the one
    under a matching key of the info dictionary, else the slot is left as it
    is; keys that are not recognized are ignored. *)
Definition requested (e : effect) (info configs : gmap string (pyval R))
    : option (pyval R) :=
  match configs !! key_of e with
  | Some v => Some v
  | None => info_value info (key_of e)
  end.

Definition configure (info configs : gmap string (pyval R)) (e : effect)
    (p : EffectPipeline) : result EffectPipeline :=
  match requested e info configs with
  | Some v => s ← resolve e info v p; Ok (put e s p)
  | None => Ok p
  end.

Definition set_effects_from_dict (info configs : gmap string (pyval R))
    (p : EffectPipeline) : result EffectPipeline :=
  foldl (λ r e, q ← r; configure info configs e q) (Ok p) recognized.

End Specified.

Arguments EffectPipeline R : clear implicits.
Arguments slot_value R : clear implicits.

(** ** Concrete data over the rationals *)

Module Demo.

Definition offsets : list Q :=
  [-0.5; -0.4; -0.3; -0.2; -0.1; 0; 0.1]%Q.
Definition amplitudes : list Q :=
  [0.5; 0.5; 0.5; 0.5; 0.5; 0.25; 0.25]%Q.

Definition data_info : pyval Q :=
  PDict {[ "input_data" :=
             PDict {[ "offset" := PTensor (T1 offsets);
                      "amplitude" := PTensor (T1 amplitudes) ]};
           "processor" :=
             PDict {[ "driver" :=
                        PDict {[ "amplification" := PTensor (T1 [28.5%Q]) ]} ]};
           "clipping_value" := PTensor (T1 [-114; 114]%Q) ]}.

(** A network with seven inputs and one output that answers 3.0 whatever
    the input. *)
Definition three (x : tensor Q) : tensor Q := T1 [3%Q].

Definition trained : NeuralNetworkModel Q :=
  {| info := Some (PDict {[ "data_info" := data_info ]}); net := three |}.

(** The same network without its metadata record. *)
Definition bare : NeuralNetworkModel Q :=
  {| info := None; net := three |}.

(** A model whose metadata lacks the clipping value. *)
Definition unclipped : NeuralNetworkModel Q :=
  {| info := Some (PDict {[ "data_info" :=
        PDict {[ "processor" :=
          PDict {[ "driver" :=
            PDict {[ "amplification" := PTensor (T1 [28.5%Q]) ]} ]} ]} ]});
     net := three |}.

Definition disk (filename : string) : result (NeuralNetworkModel Q) :=
  if bool_decide (filename = "model.pt") then Ok trained
  else Raise FileNotFoundError.

(** A deterministic stand-in for the Gaussian sampler: the perturbation of
    draw [k] is [variance * k]. *)
Definition sampler (variance : Q) (k : nat) (x : tensor Q) : tensor Q :=
  tensor_map (λ y, y + variance * inject_Z (Z.of_nat k))%Q x.

Definition noise_factory := spec_get_noise sampler.

Definition fresh : world Q :=
  {| self := blank; warned := []; draws := 0 |}.

Definition input : tensor Q := T1 [1; 2; 3; 4; 5; 6; 7]%Q.

(** The trained model with its effects set. *)
Definition tuned (a c : pyval Q) (n : option (NoiseModel Q)) : world Q :=
  configured trained None a c n [] 0.

(** The per-run info dictionary of the unit tests. *)
Definition info_dict : gmap string (pyval Q) :=
  {[ "electrode_no" := PNum 8%Q;
     "activation_electrodes" :=
       PDict {[ "electrode_no" := PNum 7%Q;
                "voltage_ranges" := PTensor (T1 [1; 2]%Q) ]};
     "output_electrodes" :=
       PDict {[ "electrode_no" := PNum 1%Q;
                "amplification" := PNum 2%Q;
                "output_clipping" := PTensor (T1 [1; 2]%Q) ]} ]}.

(** The configuration dictionary of the unit test of the batch
    configuration, with its unrecognized key. *)
Definition configs : gmap string (pyval Q) :=
  {[ "amplification" := PNum 2%Q;
     "output_clipping" := PTensor (T1 [3; 4]%Q);
     "voltage_ranges" := PStr "default";
     "noise" := PNone;
     "test" := PNum 0%Q ]}.

(** A pipeline of the spec with every effect enabled. *)
Definition pipeline : EffectPipeline Q :=
  {| ep_model := trained;
     ep_derived_ranges := T2 (ranges_of offsets amplitudes);
     ep_voltage_ranges := Some (T2 (ranges_of offsets amplitudes));
     ep_amplification := Some (T1 [28.5%Q]);
     ep_output_clipping := Some (T1 [-114; 114]%Q);
     ep_noise := Some {| perturb := sampler 1 |} |}.

(** That pipeline after a batch configuration from the info dictionary
    alone. *)
Definition from_info : EffectPipeline Q :=
  {| ep_model := trained;
     ep_derived_ranges := T2 (ranges_of offsets amplitudes);
     ep_voltage_ranges := Some (T1 [1; 2]%Q);
     ep_amplification := Some (T0 2%Q);
     ep_output_clipping := Some (T1 [1; 2]%Q);
     ep_noise := Some {| perturb := sampler 1 |} |}.

End Demo.

(** ** Shapes and elements of tensors *)

Section Shapes.
Context {R : Type}.


(** The entries of a tensor, row by row. *)
Definition elements (t : tensor R) : list R :=
  match t with
  | T0 r => [r]
  | T1 v => v
  | T2 m => concat m
  end.

End Shapes.

Section Derived.
Context {R : Type} `{Scalar R}.

(** The tensor that [_init_voltage_ranges] computes from the metadata of a
    model, or the error it stops with. *)
Definition derived_ranges (m : NeuralNetworkModel R) : result (tensor R) :=
  match info m with
  | None => Raise (AttributeError "info")
  | Some i =>
      o ← lookup_path i ["data_info"; "input_data"; "offset"];
      offset ← get_tensor_from_list o;
      a ← lookup_path i ["data_info"; "input_data"; "amplitude"];
      amplitude ← get_tensor_from_list a;
      min_voltage ← (d ← tensor_binop s_sub offset amplitude; unsqueeze1 d);
      max_voltage ← (d ← tensor_binop s_add offset amplitude; unsqueeze1 d);
      cat1 min_voltage max_voltage
  end.

End Derived.

(** ** Directories: [brainspy/utils/io.py]

    The operating system is an interface: whether a path exists
    ([os.path.exists]), [os.makedirs] and [shutil.rmtree].  The two
    commands may fail, and give the file system they leave behind. *)

Class FileSystem (FS : Type) := {
  path_exists : FS → string → bool;
  makedirs : string → FS → result unit * FS;
  rmtree : string → FS → result unit * FS
}.

Section Directories.
Context {FS : Type} `{FileSystem FS}.

Definition create_directory (path : string) (overwrite : bool) (fs : FS)
    : result string * FS :=
  if negb (path_exists fs path) then
    match makedirs path fs with
    | (Ok _, fs1) => (Ok path, fs1)
    | (Raise e, fs1) => (Raise e, fs1)
    end
  else if overwrite then
    match rmtree path fs with
    | (Ok _, fs1) =>
        match makedirs path fs1 with
        | (Ok _, fs2) => (Ok path, fs2)
        | (Raise e, fs2) => (Raise e, fs2)
        end
    | (Raise e, fs1) => (Raise e, fs1)
    end
  else (Ok path, fs).

(** [b.startswith("/")] and [a.endswith("/")] *)
Definition starts_with_sep (b : string) : bool :=
  match b with
  | String c _ => bool_decide (c = "/"%char)
  | EmptyString => false
  end.

Fixpoint ends_with_sep (a : string) : bool :=
  match a with
  | EmptyString => false
  | String c EmptyString => bool_decide (c = "/"%char)
  | String _ rest => ends_with_sep rest
  end.

(** [os.path.join(a, b)] of the POSIX path module. *)
Definition path_join (a b : string) : string :=
  if starts_with_sep b then b
  else if bool_decide (a = "") || ends_with_sep a then a +:+ b
  else a +:+ "/" +:+ b.

(** [now] is what [time.strftime("%Y_%m_%d_%H%M%S")] gives when the call is
    made. *)
Definition create_directory_timestamp (now : string) (path name : string)
    (overwrite : bool) (fs : FS) : result string * FS :=
  let datetime := now in
  let path := path_join path (name +:+ "_" +:+ datetime) in
  create_directory path overwrite fs.

End Directories.

(** ** More concrete data *)

Module Cases.

(** Metadata whose amplitude is one number for all electrodes. *)
Definition uniform : NeuralNetworkModel Q :=
  {| info := Some (PDict {[ "data_info" :=
        PDict {[ "input_data" :=
          PDict {[ "offset" := PTensor (T1 [-0.5; 0; 0.5]%Q);
                   "amplitude" := PNum 0.25%Q ]} ]} ]});
     net := Demo.three |}.

(** Metadata with three offsets and two amplitudes. *)
Definition ragged : NeuralNetworkModel Q :=
  {| info := Some (PDict {[ "data_info" :=
        PDict {[ "input_data" :=
          PDict {[ "offset" := PTensor (T1 [-0.5; 0; 0.5]%Q);
                   "amplitude" := PTensor (T1 [0.25; 0.25]%Q) ]} ]} ]});
     net := Demo.three |}.

(** A metadata record with nothing in it. *)
Definition hollow : NeuralNetworkModel Q :=
  {| info := Some (PDict ∅); net := Demo.three |}.

Definition disk (filename : string) : result (NeuralNetworkModel Q) :=
  if bool_decide (filename = "model.pt") then Ok Demo.trained
  else if bool_decide (filename = "uniform.pt") then Ok uniform
  else if bool_decide (filename = "ragged.pt") then Ok ragged
  else if bool_decide (filename = "hollow.pt") then Ok hollow
  else Raise FileNotFoundError.

(** A file system that is the set of its directories. *)
#[global] Instance directories : FileSystem (gset string) := {|
  path_exists fs p := bool_decide (p ∈ fs);
  makedirs p fs :=
    if bool_decide (p ∈ fs) then (Raise RuntimeError, fs)
    else (Ok tt, {[ p ]} ∪ fs);
  rmtree p fs :=
    if bool_decide (p ∈ fs) then (Ok tt, fs ∖ {[ p ]})
    else (Raise FileNotFoundError, fs)
|}.

End Cases.

(** * Properties *)

Section Properties.
Context {R : Type} `{Scalar R}.

#[local] Arguments lookup_path : simpl never.

Ltac run :=
  unfold mbind, M_bind, mret, M_ret, lift, getattr, update, warn, call_noise;
  simpl.

(** ** Forward evaluation *)

(** One equation for [forward] on an object whose attributes are all
    assigned: the stages in the order of the source. *)
Lemma forward_stages (m : NeuralNetworkModel R) vr a c n log k x :
  forward x (configured m vr a c n log k) =
  match (if is_none a then Ok (net m x) else tensor_mul (net m x) a) with
  | Raise e => (Raise e, configured m vr a c n log k)
  | Ok y1 =>
      let y2 := match n with Some nm => perturb nm k y1 | None => y1 end in
      let k2 := match n with Some _ => S k | None => k end in
      if is_none c then (Ok y2, configured m vr a c n log k2)
      else match bounds c with
           | Raise e => (Raise e, configured m vr a c n log k2)
           | Ok b => (Ok (torch_clamp y2 b.1 b.2), configured m vr a c n log k2)
           end
  end.
Proof.
  unfold forward, configured. run.
  destruct (is_none a); simpl.
  - destruct n; simpl; destruct (is_none c); simpl; try reflexivity;
      destruct (bounds c); reflexivity.
  - destruct (tensor_mul (net m x) a); simpl; [|reflexivity].
    destruct n; simpl; destruct (is_none c); simpl; try reflexivity;
      destruct (bounds c); reflexivity.
Qed.

(** With all three effects enabled the raw output is amplified, then
    perturbed, then clamped. *)
Lemma forward_enabled (m : NeuralNetworkModel R) vr a c n log k x y1 lo hi :
  is_none a = false →
  tensor_mul (net m x) a = Ok y1 →
  bounds c = Ok (lo, hi) →
  forward x (configured m vr a c n log k) =
  (Ok (torch_clamp (match n with Some nm => perturb nm k y1 | None => y1 end)
         lo hi),
   configured m vr a c n log (match n with Some _ => S k | None => k end)).
Proof.
  intros Ha Hy Hb. rewrite forward_stages, Ha, Hy. simpl.
  destruct c; try discriminate; simpl; rewrite Hb; reflexivity.
Qed.

(** C4: an effect whose slot holds None has its stage skipped.  With
    amplification disabled the raw output reaches the noise model unscaled;
    with noise disabled no noise model is called, so the world (the count of
    random draws included) is what it was, whatever the other two slots
    hold; with clipping disabled the perturbed output is returned unclamped;
    with all three disabled forward returns the raw model output. *)
Theorem disabled_effects_are_skipped (m : NeuralNetworkModel R) vr log k x :
  (∀ nm lo hi,
     forward x (configured m vr PNone (PTensor (T1 [lo; hi])) (Some nm) log k)
     = (Ok (torch_clamp (perturb nm k (net m x)) lo hi),
        configured m vr PNone (PTensor (T1 [lo; hi])) (Some nm) log (S k)))
  ∧ (∀ g lo hi,
       forward x (configured m vr (PNum g) (PTensor (T1 [lo; hi])) None log k)
       = (Ok (torch_clamp (tensor_map (λ y, s_mul y g) (net m x)) lo hi),
          configured m vr (PNum g) (PTensor (T1 [lo; hi])) None log k))
  ∧ (∀ a c, (forward x (configured m vr a c None log k)).2
            = configured m vr a c None log k)
  ∧ (∀ g nm,
       forward x (configured m vr (PNum g) PNone (Some nm) log k)
       = (Ok (perturb nm k (tensor_map (λ y, s_mul y g) (net m x))),
          configured m vr (PNum g) PNone (Some nm) log (S k)))
  ∧ forward x (configured m vr PNone PNone None log k)
    = (Ok (net m x), configured m vr PNone PNone None log k).
Proof.
  repeat split; intros; rewrite forward_stages; simpl; try reflexivity.
  destruct (is_none a); [|destruct (tensor_mul (net m x) a)]; simpl;
    try reflexivity;
    (destruct (is_none c); simpl; [reflexivity|]);
    destruct (bounds c); reflexivity.
Qed.

(** ** Life cycle and introspection *)

(** C8: [reset] appends its warning to the warnings emitted and changes
    nothing else, while [close] returns without emitting anything: its body
    is [pass] and the world after the call is the world before it. *)
Theorem close_emits_no_warning (w : world R) :
  close w = (Ok tt, w)
  ∧ reset w = (Ok tt, {| self := self w;
                         warned := warned w ++ [reset_message];
                         draws := draws w |}).
Proof. split; reflexivity. Qed.

(** C9: when the model carries a metadata record whose offset array has
    [D_in] entries, [get_electrode_no] returns [D_in] and emits nothing;
    when the model has no metadata record it emits one warning and returns
    None.  It raises in neither case. *)
Theorem get_electrode_no_counts_offsets (w : world R) m :
  model (self w) = Some m →
  (∀ i o, info m = Some i →
          lookup_path i ["data_info"; "input_data"; "offset"]
          = Ok (PTensor (T1 o)) →
          get_electrode_no w = (Ok (Some (length o)), w))
  ∧ (info m = None →
     get_electrode_no w
     = (Ok None, {| self := self w;
                    warned := warned w ++ [electrode_message];
                    draws := draws w |})).
Proof.
  intros Hm. split.
  - intros i o Hi Ho. unfold get_electrode_no. run.
    rewrite Hm, Hi. simpl. rewrite Ho. reflexivity.
  - intros Hi. unfold get_electrode_no. run. rewrite Hm, Hi. reflexivity.
Qed.

(** ** Construction and the voltage ranges *)

Variable torch_load : string → result (NeuralNetworkModel R).

Lemma columns_side_by_side (f g : R → R → R) (o a : list R) :
  zip_with app (map (λ x, [x]) (zip_with f o a))
               (map (λ x, [x]) (zip_with g o a))
  = zip_with (λ oi ai, [f oi ai; g oi ai]) o a.
Proof.
  revert a. induction o as [|oi o IH]; intros [|ai a]; simpl; try reflexivity.
  f_equal. apply IH.
Qed.

Lemma bc1_same_length (op : R → R → R) (u v : list R) :
  length u = length v → bc1 op u v = Ok (zip_with op u v).
Proof. intros E. unfold bc1. rewrite decide_True by exact E. reflexivity. Qed.

Lemma ranges_of_row (o a : list R) (i : nat) oi ai :
  o !! i = Some oi → a !! i = Some ai →
  ranges_of o a !! i = Some [s_sub oi ai; s_add oi ai].
Proof.
  intros Ho Ha. unfold ranges_of. rewrite lookup_zip_with, Ho. simpl.
  rewrite Ha. reflexivity.
Qed.

(** What [load_base_model] leaves behind when the metadata holds the offset
    array [o] and the amplitude array [a] of one length. *)
Lemma load_base_model_ranges (w : world R) filename m i o a :
  torch_load filename = Ok m →
  info m = Some i →
  lookup_path i ["data_info"; "input_data"; "offset"] = Ok (PTensor (T1 o)) →
  lookup_path i ["data_info"; "input_data"; "amplitude"] = Ok (PTensor (T1 a)) →
  length o = length a →
  load_base_model torch_load filename w
  = (Ok tt,
     {| self := set_voltage_ranges_attr (T2 (ranges_of o a))
                  (set_model m (self w));
        warned := warned w; draws := draws w |}).
Proof.
  intros Hl Hi Ho Ha Hlen.
  unfold load_base_model, _init_voltage_ranges, info_path, model_info. run.
  rewrite Hl. simpl. rewrite Hi. simpl. rewrite Ho. simpl.
  rewrite Hi. simpl. rewrite Ha. simpl.
  rewrite !bc1_same_length by exact Hlen. simpl.
  rewrite decide_True by (rewrite !length_map, !length_zip_with; reflexivity).
  rewrite columns_side_by_side. reflexivity.
Qed.

(** C2: after loading a model whose metadata holds the offset array [o] and
    the amplitude array [a], both of length [D_in], the voltage ranges are a
    tensor of [D_in] rows of two entries, and row [i] is
    [o_i - a_i, o_i + a_i]. *)
Theorem voltage_ranges_from_metadata (w : world R) filename m i o a D_in :
  torch_load filename = Ok m →
  info m = Some i →
  lookup_path i ["data_info"; "input_data"; "offset"] = Ok (PTensor (T1 o)) →
  lookup_path i ["data_info"; "input_data"; "amplitude"] = Ok (PTensor (T1 a)) →
  length o = D_in →
  length a = D_in →
  ∃ rows,
    (load_base_model torch_load filename w).1 = Ok tt
    ∧ voltage_ranges (self (load_base_model torch_load filename w).2)
      = Some (T2 rows)
    ∧ length rows = D_in
    ∧ Forall (λ row, length row = 2) rows
    ∧ ∀ e oi ai, o !! e = Some oi → a !! e = Some ai →
                 rows !! e = Some [s_sub oi ai; s_add oi ai].
Proof.
  intros Hl Hi Ho Ha Hlo Hla. exists (ranges_of o a).
  rewrite (load_base_model_ranges w filename m i o a) by congruence.
  simpl. repeat split.
  - unfold ranges_of. rewrite length_zip_with. lia.
  - unfold ranges_of. apply list.Forall_forall. intros row Hin.
    apply list_elem_of_lookup in Hin as [e He].
    rewrite lookup_zip_with in He.
    destruct (o !! e); simpl in He; [|discriminate].
    destruct (a !! e); simpl in He; [|discriminate].
    injection He as <-. reflexivity.
  - intros e oi ai. apply ranges_of_row.
Qed.

(** ** The setters *)

Lemma set_amplification_stores (v : pyval R) (w : world R) :
  set_amplification v w =
  match stored amplification_path v (model (self w)) with
  | Ok x => (Ok tt, with_self (set_amplification_attr x) w)
  | Raise e => (Raise e, w)
  end.
Proof.
  unfold set_amplification, stored, info_path, model_info, amplification_path.
  destruct (negb (is_none v) && eq_default v); [|reflexivity].
  run. destruct (model (self w)) as [m|]; simpl; [|reflexivity].
  destruct (info m) as [i|]; simpl; [|reflexivity].
  destruct (lookup_path i _) as [a|]; simpl; [|reflexivity].
  destruct (get_tensor_from_list a); reflexivity.
Qed.

Lemma set_output_clipping_stores (v : pyval R) (w : world R) :
  set_output_clipping v w =
  match stored clipping_path v (model (self w)) with
  | Ok x => (Ok tt, with_self (set_output_clipping_attr x) w)
  | Raise e => (Raise e, w)
  end.
Proof.
  unfold set_output_clipping, stored, info_path, model_info, clipping_path.
  destruct (negb (is_none v) && eq_default v); [|reflexivity].
  run. destruct (model (self w)) as [m|]; simpl; [|reflexivity].
  destruct (info m) as [i|]; simpl; [|reflexivity].
  destruct (lookup_path i _) as [a|]; simpl; [|reflexivity].
  destruct (get_tensor_from_list a); reflexivity.
Qed.

Lemma stored_explicit ks (v : pyval R) mo :
  eq_default v = false → stored ks v mo = Ok v.
Proof. intros E. unfold stored. rewrite E, andb_false_r. reflexivity. Qed.

Lemma stored_none ks mo : stored ks (PNone : pyval R) mo = Ok PNone.
Proof. reflexivity. Qed.

(** C5: for the amplification and for the output clipping, once the slot
    has been set to "default", setting it to any value and then to "default"
    again succeeds and gives back the state reached by the first "default"
    call, so the slot holds the same value drawn from the metadata. *)
Theorem default_value_is_reproduced (v : pyval R) (w w1 : world R) :
  (set_amplification (PStr "default") w = (Ok tt, w1) →
   ∃ w2, set_amplification v w1 = (Ok tt, w2)
         ∧ set_amplification (PStr "default") w2 = (Ok tt, w1)
         ∧ amplification (self w2)
           = (if eq_default v then amplification (self w1) else Some v))
  ∧ (set_output_clipping (PStr "default") w = (Ok tt, w1) →
     ∃ w2, set_output_clipping v w1 = (Ok tt, w2)
           ∧ set_output_clipping (PStr "default") w2 = (Ok tt, w1)
           ∧ output_clipping (self w2)
             = (if eq_default v then output_clipping (self w1) else Some v)).
Proof.
  split; intros H1.
  - rewrite set_amplification_stores in H1.
    destruct (stored amplification_path (PStr "default") (model (self w)))
      as [t|] eqn:Ht; [|discriminate].
    injection H1 as <-.
    destruct (eq_default v) eqn:Ev.
    + destruct v; try discriminate. apply bool_decide_eq_true in Ev as ->.
      exists (with_self (set_amplification_attr t) w).
      rewrite !set_amplification_stores. simpl. rewrite Ht. auto.
    + exists (with_self (set_amplification_attr v)
                (with_self (set_amplification_attr t) w)).
      rewrite !set_amplification_stores. simpl.
      rewrite (stored_explicit _ v) by exact Ev. rewrite Ht. auto.
  - rewrite set_output_clipping_stores in H1.
    destruct (stored clipping_path (PStr "default") (model (self w)))
      as [t|] eqn:Ht; [|discriminate].
    injection H1 as <-.
    destruct (eq_default v) eqn:Ev.
    + destruct v; try discriminate. apply bool_decide_eq_true in Ev as ->.
      exists (with_self (set_output_clipping_attr t) w).
      rewrite !set_output_clipping_stores. simpl. rewrite Ht. auto.
    + exists (with_self (set_output_clipping_attr v)
                (with_self (set_output_clipping_attr t) w)).
      rewrite !set_output_clipping_stores. simpl.
      rewrite (stored_explicit _ v) by exact Ev. rewrite Ht. auto.
Qed.

(** ** Configuration in one call *)

Variable get_noise :
  pyval R → gmap string (pyval R) → result (option (NoiseModel R)).

Lemma set_effects_steps a c n kw (w : world R) :
  set_effects get_noise a c n kw w =
  match stored amplification_path a (model (self w)) with
  | Raise e => (Raise e, w)
  | Ok x =>
      let w1 := with_self (set_amplification_attr x) w in
      match stored clipping_path c (model (self w)) with
      | Raise e => (Raise e, w1)
      | Ok y =>
          let w2 := with_self (set_output_clipping_attr y) w1 in
          match get_noise n kw with
          | Raise e => (Raise e, w2)
          | Ok z => (Ok tt, with_self (set_noise_attr z) w2)
          end
      end
  end.
Proof.
  unfold set_effects. unfold mbind at 1, M_bind at 1.
  rewrite set_amplification_stores.
  destruct (stored amplification_path a (model (self w))) as [x|]; [|reflexivity].
  unfold mbind at 1, M_bind at 1. rewrite set_output_clipping_stores. simpl.
  destruct (stored clipping_path c (model (self w))) as [y|]; [|reflexivity].
  run. destruct (get_noise n kw); reflexivity.
Qed.

(** C10: provided the noise factory gives no noise model for the disabled
    sentinel, a call of [set_effects] that names the amplification only
    leaves output clipping and noise disabled whatever they held; with an
    amplification other than "default" the call always returns and the
    three slots hold the amplification given, None and None; and the slots
    after any call that returns are the same from every prior state of the
    same model. *)
Theorem set_effects_replaces_every_slot a kw (w : world R) :
  (∀ kw', get_noise PNone kw' = Ok None) →
  (∀ w', set_effects get_noise a PNone PNone kw w = (Ok tt, w') →
         output_clipping (self w') = Some PNone ∧ noise (self w') = Some None)
  ∧ (eq_default a = false →
     set_effects get_noise a PNone PNone kw w
     = (Ok tt, with_self (λ s, set_noise_attr None
                 (set_output_clipping_attr PNone (set_amplification_attr a s))) w))
  ∧ (∀ c n v w',
       model (self v) = model (self w) →
       set_effects get_noise a c n kw w = (Ok tt, w') →
       ∃ v', set_effects get_noise a c n kw v = (Ok tt, v')
             ∧ amplification (self v') = amplification (self w')
             ∧ output_clipping (self v') = output_clipping (self w')
             ∧ noise (self v') = noise (self w')).
Proof.
  intros Hnone. split; [|split].
  - intros w' Hw.
    rewrite set_effects_steps, stored_none, Hnone in Hw. simpl in Hw.
    destruct (stored amplification_path a (model (self w))); [|discriminate].
    injection Hw as <-. split; reflexivity.
  - intros Ea. rewrite set_effects_steps, stored_none, Hnone.
    rewrite (stored_explicit _ a) by exact Ea. reflexivity.
  - intros c n v w' Hm Hw. rewrite set_effects_steps in Hw.
    rewrite set_effects_steps, Hm. simpl in *.
    destruct (stored amplification_path a (model (self w))); [|discriminate].
    destruct (stored clipping_path c (model (self w))); [|discriminate].
    destruct (get_noise n kw); [|discriminate].
    injection Hw as <-. eexists. split; [reflexivity|]. auto.
Qed.

(** C7, as amended: when the noise factory rejects the request,
    [set_effects] raises the factory's error after both setters have run:
    the state it leaves is the one reached by [set_amplification] and
    [set_output_clipping], and only the noise slot is as before.  A setter
    of a single slot that raises leaves the state as it was. *)
Theorem failed_set_effects_keeps_only_noise a c n kw e (w w1 w2 : world R) :
  (get_noise n kw = Raise e →
   set_amplification a w = (Ok tt, w1) →
   set_output_clipping c w1 = (Ok tt, w2) →
   set_effects get_noise a c n kw w = (Raise e, w2)
   ∧ noise (self w2) = noise (self w)
   ∧ amplification (self w2) = amplification (self w1)
   ∧ (eq_default a = false → amplification (self w2) = Some a)
   ∧ (eq_default c = false → output_clipping (self w2) = Some c))
  ∧ (set_amplification a w = (Raise e, w1) → w1 = w)
  ∧ (set_output_clipping c w = (Raise e, w1) → w1 = w).
Proof.
  split; [|split].
  - intros Hn Ha Hc. rewrite set_effects_steps.
    rewrite set_amplification_stores in Ha.
    destruct (stored amplification_path a (model (self w))) as [x|] eqn:Ex;
      [|discriminate].
    injection Ha as <-. rewrite set_output_clipping_stores in Hc. simpl in *.
    destruct (stored clipping_path c (model (self w))) as [y|] eqn:Ey;
      [|discriminate].
    injection Hc as <-. rewrite Hn. simpl. repeat split.
    + intros Ea. rewrite (stored_explicit _ a) in Ex by exact Ea. congruence.
    + intros Ec. rewrite (stored_explicit _ c) in Ey by exact Ec. congruence.
  - rewrite set_amplification_stores.
    destruct (stored amplification_path a (model (self w))); congruence.
  - rewrite set_output_clipping_stores.
    destruct (stored clipping_path c (model (self w))); congruence.
Qed.

(** ** The state after construction *)

Ltac invert_run H E :=
  repeat first
    [ discriminate H
    | rewrite E in H; simpl in H
    | match type of H with
      | context [match ?x with _ => _ end] => destruct x eqn:?; simpl in H
      end ].

(** A construction that returns has loaded a model and assigned the voltage
    ranges, and nothing else. *)
Lemma init_assigns_model_and_ranges filename (w0 w : world R) :
  __init__ torch_load filename w0 = (Ok tt, w) →
  ∃ m v, torch_load filename = Ok m
         ∧ w = with_self (λ s, set_voltage_ranges_attr v (set_model m s)) w0.
Proof.
  unfold __init__, load_base_model, _init_voltage_ranges, info_path, model_info.
  run. intros Hrun.
  destruct (torch_load filename) as [m|]; simpl in Hrun; [|discriminate].
  exists m.
  destruct (info m) as [i|] eqn:Hi; simpl in Hrun; [|discriminate].
  invert_run Hrun Hi. injection Hrun as <-. eexists. split; reflexivity.
Qed.

(** C3, as amended: construction assigns the model and the voltage ranges
    only.  The three effect attributes do not exist yet and a forward pass
    raises AttributeError.  Once [set_effects] has been called with no
    effect named (and the noise factory gives no noise model for the
    disabled sentinel) the three slots hold None and the forward pass
    returns the raw model output, leaving the world as it is. *)
Theorem effects_unassigned_until_set_effects filename log k kw x (w : world R) :
  __init__ torch_load filename {| self := blank; warned := log; draws := k |}
  = (Ok tt, w) →
  get_noise PNone kw = Ok None →
  amplification (self w) = None
  ∧ output_clipping (self w) = None
  ∧ noise (self w) = None
  ∧ forward x w = (Raise (AttributeError "amplification"), w)
  ∧ ∃ m w', torch_load filename = Ok m
            ∧ set_effects get_noise PNone PNone PNone kw w = (Ok tt, w')
            ∧ amplification (self w') = Some PNone
            ∧ output_clipping (self w') = Some PNone
            ∧ noise (self w') = Some None
            ∧ forward x w' = (Ok (net m x), w').
Proof.
  intros Hinit Hnone.
  apply init_assigns_model_and_ranges in Hinit as (m & v & Hm & ->).
  repeat split.
  exists m. eexists. split; [exact Hm|].
  rewrite set_effects_steps, !stored_none, Hnone. simpl.
  repeat split.
Qed.

End Properties.

(** ** The batch configuration of the spec *)

Section BatchConfiguration.
Context {R : Type} `{Scalar R}.
Variable sampler : R → nat → tensor R → tensor R.

Lemma put_frame (e : effect) (s : slot_value R) (p : EffectPipeline R) :
  ep_model (put e s p) = ep_model p
  ∧ ep_derived_ranges (put e s p) = ep_derived_ranges p
  ∧ ∀ e', e' ≠ e → slot e' (put e s p) = slot e' p.
Proof.
  destruct e, s; simpl; repeat split; intros []; simpl; congruence.
Qed.

Lemma resolve_frame e info v (p q : EffectPipeline R) :
  ep_model q = ep_model p →
  ep_derived_ranges q = ep_derived_ranges p →
  resolve sampler e info v q = resolve sampler e info v p.
Proof.
  intros Hm Hd. unfold resolve, default_value, metadata. rewrite Hm, Hd.
  reflexivity.
Qed.

Lemma resolve_fills_slot e info v (p q : EffectPipeline R) s :
  resolve sampler e info v p = Ok s → slot e (put e s q) = s.
Proof.
  unfold resolve, default_value. intros Hr.
  destruct e; simpl;
    repeat match type of Hr with
           | Ok _ = Ok _ => injection Hr as <-
           | Raise _ = Ok _ => discriminate Hr
           | context [match ?x with _ => _ end] =>
               destruct x eqn:?; simpl in Hr
           | context [mbind _ ?x] => destruct x eqn:?; simpl in Hr
           | context [fmap _ ?x] => destruct x eqn:?; simpl in Hr
           end; reflexivity.
Qed.

Lemma configure_frame info configs e (p q : EffectPipeline R) :
  configure sampler info configs e p = Ok q →
  ep_model q = ep_model p
  ∧ ep_derived_ranges q = ep_derived_ranges p
  ∧ ∀ e', e' ≠ e → slot e' q = slot e' p.
Proof.
  unfold configure. destruct (requested e info configs) as [v|].
  - destruct (resolve sampler e info v p) as [s|]; simpl; [|discriminate].
    intros [= <-]. apply put_frame.
  - intros [= <-]. auto.
Qed.

Lemma configure_slot info configs e (p q : EffectPipeline R) :
  configure sampler info configs e p = Ok q →
  match requested e info configs with
  | Some v => resolve sampler e info v p = Ok (slot e q)
  | None => slot e q = slot e p
  end.
Proof.
  unfold configure. destruct (requested e info configs) as [v|].
  - destruct (resolve sampler e info v p) as [s|] eqn:Hr; simpl; [|discriminate].
    intros [= <-]. rewrite (resolve_fills_slot e info v p p s Hr). reflexivity.
  - intros [= <-]. reflexivity.
Qed.

(** Each slot after the batch configuration is the resolution of the value
    requested for it, or what it was when nothing is requested. *)
Lemma set_effects_from_dict_slot info configs e (p p' : EffectPipeline R) :
  set_effects_from_dict sampler info configs p = Ok p' →
  match requested e info configs with
  | Some v => resolve sampler e info v p = Ok (slot e p')
  | None => slot e p' = slot e p
  end.
Proof.
  unfold set_effects_from_dict, recognized. simpl.
  destruct (configure sampler info configs Amplification p) as [p1|] eqn:E1;
    simpl; [|discriminate].
  destruct (configure sampler info configs OutputClipping p1) as [p2|] eqn:E2;
    simpl; [|discriminate].
  destruct (configure sampler info configs VoltageRanges p2) as [p3|] eqn:E3;
    simpl; [|discriminate].
  intros E4.
  pose proof (configure_frame _ _ _ _ _ E1) as (M1 & D1 & F1).
  pose proof (configure_frame _ _ _ _ _ E2) as (M2 & D2 & F2).
  pose proof (configure_frame _ _ _ _ _ E3) as (M3 & D3 & F3).
  pose proof (configure_frame _ _ _ _ _ E4) as (M4 & D4 & F4).
  pose proof (configure_slot _ _ _ _ _ E1) as S1.
  pose proof (configure_slot _ _ _ _ _ E2) as S2.
  pose proof (configure_slot _ _ _ _ _ E3) as S3.
  pose proof (configure_slot _ _ _ _ _ E4) as S4.
  destruct e.
  - rewrite (F4 Amplification), (F3 Amplification), (F2 Amplification)
      by discriminate.
    exact S1.
  - rewrite (F4 OutputClipping), (F3 OutputClipping) by discriminate.
    destruct (requested OutputClipping info configs) as [v|].
    + rewrite <- S2. symmetry. apply resolve_frame; congruence.
    + rewrite S2. apply F1. discriminate.
  - rewrite (F4 VoltageRanges) by discriminate.
    destruct (requested VoltageRanges info configs) as [v|].
    + rewrite <- S3. symmetry. apply resolve_frame; congruence.
    + rewrite S3, (F2 VoltageRanges), (F1 VoltageRanges) by discriminate.
      reflexivity.
  - destruct (requested Noise info configs) as [v|].
    + rewrite <- S4. symmetry. apply resolve_frame; congruence.
    + rewrite S4, (F3 Noise), (F2 Noise), (F1 Noise) by discriminate.
      reflexivity.
Qed.

End BatchConfiguration.

(** C6: on the model of the batch configuration written after the spec,
    the configuration of the unit test (amplification 2, output clipping
    [3,4], voltage ranges "default", noise None, and a key that is not
    recognized) against the info dictionary whose activation electrodes
    carry the voltage ranges [1,2] gives amplification 2, output clipping
    [3,4], voltage ranges [1,2] and no noise, from every prior state; and for
    a recognized key that the configuration lacks, the slot is resolved from
    the value under the matching key of the info dictionary when there is
    one, and is left as it was otherwise. *)
Theorem batch_configuration_resolves_each_key :
  (∀ (sampler : Q → nat → tensor Q → tensor Q) (p : EffectPipeline Q),
     ∃ p', set_effects_from_dict sampler Demo.info_dict Demo.configs p = Ok p'
           ∧ ep_amplification p' = Some (T0 2%Q)
           ∧ ep_output_clipping p' = Some (T1 [3; 4]%Q)
           ∧ ep_voltage_ranges p' = Some (T1 [1; 2]%Q)
           ∧ ep_noise p' = None)
  ∧ (∀ (R : Type) (N : Scalar R) (sampler : R → nat → tensor R → tensor R)
       (info configs : gmap string (pyval R)) (e : effect)
       (p p' : EffectPipeline R),
       set_effects_from_dict sampler info configs p = Ok p' →
       configs !! key_of e = None →
       match info_value info (key_of e) with
       | Some v => resolve sampler e info v p = Ok (slot e p')
       | None => slot e p' = slot e p
       end).
Proof.
  split.
  - intros sampler p. eexists. split; [vm_compute; reflexivity|].
    repeat split.
  - intros R N sampler info configs e p p' Hset Hcfg.
    pose proof (set_effects_from_dict_slot sampler info configs e p p' Hset) as Hs.
    unfold requested in Hs. rewrite Hcfg in Hs. exact Hs.
Qed.

(** C1: on an object whose three effects are enabled, forward multiplies
    the raw model output by the amplification, hands the product to the
    noise model and clamps what comes back to the clipping bounds, in this
    order.  With amplification 2, noise disabled, clipping [1,2] and the raw
    output 3.0 it returns clamp(3.0*2, 1, 2) = 2.0, where clamping before
    the amplification would give 4.0. *)
Theorem forward_amplifies_perturbs_then_clamps :
  (∀ (R : Type) (N : Scalar R) (m : NeuralNetworkModel R) vr a c n log k x
     y1 lo hi,
     is_none a = false →
     tensor_mul (net m x) a = Ok y1 →
     bounds c = Ok (lo, hi) →
     forward x (configured m vr a c n log k)
     = (Ok (torch_clamp
              (match n with Some nm => perturb nm k y1 | None => y1 end) lo hi),
        configured m vr a c n log (match n with Some _ => S k | None => k end)))
  ∧ net Demo.trained Demo.input = T1 [3%Q]
  ∧ forward Demo.input (Demo.tuned (PNum 2%Q) (PTensor (T1 [1; 2]%Q)) None)
    = (Ok (T1 [2%Q]), Demo.tuned (PNum 2%Q) (PTensor (T1 [1; 2]%Q)) None)
  ∧ tensor_mul (torch_clamp (net Demo.trained Demo.input) 1%Q 2%Q) (PNum 2%Q)
    = Ok (T1 [4%Q]).
Proof.
  split; [|repeat split].
  intros R N m vr a c n log k x y1 lo hi. apply forward_enabled.
Qed.

(** ** The theorems at concrete inputs *)

Lemma forward_order_witness :
  forward Demo.input
    (configured Demo.trained None (PNum 2%Q) (PTensor (T1 [1; 2]%Q)) None [] 0)
  = (Ok (torch_clamp (T1 [6%Q]) 1%Q 2%Q),
     configured Demo.trained None (PNum 2%Q) (PTensor (T1 [1; 2]%Q)) None [] 0).
Proof.
  apply (proj1 forward_amplifies_perturbs_then_clamps Q Q_scalar Demo.trained
           None (PNum 2%Q) (PTensor (T1 [1; 2]%Q)) None [] 0%nat Demo.input
           (T1 [6%Q]) 1%Q 2%Q); reflexivity.
Defined.

Lemma voltage_ranges_witness :
  ∃ rows,
    (load_base_model Demo.disk "model.pt" Demo.fresh).1 = Ok tt
    ∧ voltage_ranges (self (load_base_model Demo.disk "model.pt" Demo.fresh).2)
      = Some (T2 rows)
    ∧ length rows = 7
    ∧ Forall (λ row, length row = 2) rows
    ∧ ∀ e oi ai, Demo.offsets !! e = Some oi → Demo.amplitudes !! e = Some ai →
                 rows !! e = Some [s_sub oi ai; s_add oi ai].
Proof.
  apply (voltage_ranges_from_metadata Demo.disk Demo.fresh "model.pt"
           Demo.trained (PDict {[ "data_info" := Demo.data_info ]})
           Demo.offsets Demo.amplitudes 7); reflexivity.
Defined.

Lemma construction_witness :
  amplification (self (__init__ Demo.disk "model.pt" Demo.fresh).2) = None
  ∧ output_clipping (self (__init__ Demo.disk "model.pt" Demo.fresh).2) = None
  ∧ noise (self (__init__ Demo.disk "model.pt" Demo.fresh).2) = None
  ∧ forward Demo.input (__init__ Demo.disk "model.pt" Demo.fresh).2
    = (Raise (AttributeError "amplification"),
       (__init__ Demo.disk "model.pt" Demo.fresh).2)
  ∧ ∃ m w', Demo.disk "model.pt" = Ok m
            ∧ set_effects Demo.noise_factory PNone PNone PNone ∅
                (__init__ Demo.disk "model.pt" Demo.fresh).2 = (Ok tt, w')
            ∧ amplification (self w') = Some PNone
            ∧ output_clipping (self w') = Some PNone
            ∧ noise (self w') = Some None
            ∧ forward Demo.input w' = (Ok (net m Demo.input), w').
Proof.
  apply (effects_unassigned_until_set_effects Demo.disk Demo.noise_factory
           "model.pt" [] 0 ∅ Demo.input); reflexivity.
Defined.

Lemma default_value_witness :
  (∃ w2, set_amplification (PNum 4%Q)
           (Demo.tuned (PTensor (T1 [28.5%Q])) PNone None) = (Ok tt, w2)
         ∧ set_amplification (PStr "default") w2
           = (Ok tt, Demo.tuned (PTensor (T1 [28.5%Q])) PNone None)
         ∧ amplification (self w2) = Some (PNum 4%Q))
  ∧ (∃ w2, set_output_clipping (PTensor (T1 [10; 20]%Q))
             (Demo.tuned PNone (PTensor (T1 [-114; 114]%Q)) None) = (Ok tt, w2)
           ∧ set_output_clipping (PStr "default") w2
             = (Ok tt, Demo.tuned PNone (PTensor (T1 [-114; 114]%Q)) None)
           ∧ output_clipping (self w2) = Some (PTensor (T1 [10; 20]%Q))).
Proof.
  split.
  - apply (proj1 (default_value_is_reproduced (PNum 4%Q)
             (Demo.tuned PNone PNone None)
             (Demo.tuned (PTensor (T1 [28.5%Q])) PNone None))).
    reflexivity.
  - apply (proj2 (default_value_is_reproduced (PTensor (T1 [10; 20]%Q))
             (Demo.tuned PNone PNone None)
             (Demo.tuned PNone (PTensor (T1 [-114; 114]%Q)) None))).
    reflexivity.
Defined.

Lemma batch_configuration_witness :
  resolve Demo.sampler Amplification Demo.info_dict (PNum 2%Q) Demo.pipeline
  = Ok (slot Amplification Demo.from_info)
  ∧ slot Noise Demo.from_info = slot Noise Demo.pipeline.
Proof.
  split.
  - exact (proj2 batch_configuration_resolves_each_key Q Q_scalar Demo.sampler
             Demo.info_dict ∅ Amplification Demo.pipeline Demo.from_info
             eq_refl eq_refl).
  - exact (proj2 batch_configuration_resolves_each_key Q Q_scalar Demo.sampler
             Demo.info_dict ∅ Noise Demo.pipeline Demo.from_info
             eq_refl eq_refl).
Defined.

Lemma failed_set_effects_witness :
  set_effects Demo.noise_factory (PNum 2%Q) (PTensor (T1 [3; 4]%Q))
    (PStr "pink") ∅ (Demo.tuned PNone PNone None)
  = (Raise ConfigurationError,
     Demo.tuned (PNum 2%Q) (PTensor (T1 [3; 4]%Q)) None)
  ∧ (set_amplification (PStr "default")
       (configured Demo.bare None PNone PNone None [] 0)).2
    = configured Demo.bare None PNone PNone None [] 0
  ∧ (set_output_clipping (PStr "default")
       (configured Demo.unclipped None PNone PNone None [] 0)).2
    = configured Demo.unclipped None PNone PNone None [] 0.
Proof.
  split; [|split].
  - apply (proj1 (failed_set_effects_keeps_only_noise Demo.noise_factory
             (PNum 2%Q) (PTensor (T1 [3; 4]%Q)) (PStr "pink") ∅
             ConfigurationError (Demo.tuned PNone PNone None)
             (Demo.tuned (PNum 2%Q) PNone None)
             (Demo.tuned (PNum 2%Q) (PTensor (T1 [3; 4]%Q)) None)));
      reflexivity.
  - apply (proj1 (proj2 (failed_set_effects_keeps_only_noise Demo.noise_factory
             (PStr "default") PNone PNone ∅ (AttributeError "info")
             (configured Demo.bare None PNone PNone None [] 0)
             (set_amplification (PStr "default")
                (configured Demo.bare None PNone PNone None [] 0)).2
             (configured Demo.bare None PNone PNone None [] 0))));
      reflexivity.
  - apply (proj2 (proj2 (failed_set_effects_keeps_only_noise Demo.noise_factory
             PNone (PStr "default") PNone ∅ (KeyError "clipping_value")
             (configured Demo.unclipped None PNone PNone None [] 0)
             (set_output_clipping (PStr "default")
                (configured Demo.unclipped None PNone PNone None [] 0)).2
             (configured Demo.unclipped None PNone PNone None [] 0))));
      reflexivity.
Defined.

Lemma get_electrode_no_witness :
  get_electrode_no (Demo.tuned PNone PNone None)
  = (Ok (Some 7), Demo.tuned PNone PNone None)
  ∧ get_electrode_no (configured Demo.bare None PNone PNone None [] 0)
    = (Ok None,
       configured Demo.bare None PNone PNone None [electrode_message] 0).
Proof.
  split.
  - apply (proj1 (get_electrode_no_counts_offsets (Demo.tuned PNone PNone None)
             Demo.trained eq_refl)
           (PDict {[ "data_info" := Demo.data_info ]}) Demo.offsets);
      reflexivity.
  - apply (proj2 (get_electrode_no_counts_offsets
             (configured Demo.bare None PNone PNone None [] 0)
             Demo.bare eq_refl)); reflexivity.
Defined.

Lemma set_effects_witness :
  set_effects Demo.noise_factory (PNum 2%Q) PNone PNone ∅
    (Demo.tuned (PNum 5%Q) (PTensor (T1 [1; 2]%Q))
       (Some {| perturb := Demo.sampler 1 |}))
  = (Ok tt, Demo.tuned (PNum 2%Q) PNone None).
Proof.
  apply (proj1 (proj2 (set_effects_replaces_every_slot Demo.noise_factory
           (PNum 2%Q) ∅
           (Demo.tuned (PNum 5%Q) (PTensor (T1 [1; 2]%Q))
              (Some {| perturb := Demo.sampler 1 |}))
           (λ kw, eq_refl)))); reflexivity.
Defined.

(** ** Where the code departs from the spec *)

(** Against C3: the object built from the model file has no amplification
    attribute, and its forward pass raises instead of returning the raw
    model output. *)
Lemma forward_raises_after_construction :
  (__init__ Demo.disk "model.pt" Demo.fresh).1 = Ok tt
  ∧ amplification (self (__init__ Demo.disk "model.pt" Demo.fresh).2)
    ≠ Some PNone
  ∧ (forward Demo.input (__init__ Demo.disk "model.pt" Demo.fresh).2).1
    = Raise (AttributeError "amplification")
  ∧ (forward Demo.input (__init__ Demo.disk "model.pt" Demo.fresh).2).1
    ≠ Ok (net Demo.trained Demo.input).
Proof.
  repeat split; vm_compute; discriminate.
Qed.

(** Against C7: a call of [set_effects] with a noise tag that the factory
    rejects raises after the amplification and the output clipping have been
    replaced; and a call that asks for the default clipping of a model whose
    metadata has none raises after the amplification has been replaced. *)
Lemma set_effects_updates_before_failing :
  (set_effects Demo.noise_factory (PNum 2%Q) (PTensor (T1 [3; 4]%Q))
     (PStr "pink") ∅ (Demo.tuned PNone PNone None)).1
  = Raise ConfigurationError
  ∧ amplification (self (set_effects Demo.noise_factory (PNum 2%Q)
       (PTensor (T1 [3; 4]%Q)) (PStr "pink") ∅
       (Demo.tuned PNone PNone None)).2)
    ≠ amplification (self (Demo.tuned PNone PNone None))
  ∧ (set_effects Demo.noise_factory (PNum 2%Q) (PStr "default") PNone ∅
       (configured Demo.unclipped None PNone PNone None [] 0)).1
    = Raise (KeyError "clipping_value")
  ∧ amplification (self (set_effects Demo.noise_factory (PNum 2%Q)
       (PStr "default") PNone ∅
       (configured Demo.unclipped None PNone PNone None [] 0)).2)
    ≠ amplification
        (self (configured Demo.unclipped None PNone PNone None [] 0)).
Proof.
  repeat split; vm_compute; discriminate.
Qed.

(** * Further properties of the processor *)

Section Further.
Context {R : Type} `{Scalar R}.
Variable torch_load : string → result (NeuralNetworkModel R).
Variable get_noise :
  pyval R → gmap string (pyval R) → result (option (NoiseModel R)).

#[local] Arguments lookup_path : simpl never.

Ltac run :=
  unfold mbind, M_bind, mret, M_ret, lift, getattr, update, warn, call_noise;
  simpl.

Ltac cases :=
  repeat match goal with
         | |- context [match ?x with _ => _ end] => destruct x eqn:?; simpl
         end.

(** X1: a forward pass reads the object and never writes it: whether it
    returns or raises, the object and the warnings emitted are what they
    were, and at most one random draw has been taken. *)
Theorem forward_leaves_the_object_alone (x : tensor R) (w : world R) :
  self (forward x w).2 = self w
  ∧ warned (forward x w).2 = warned w
  ∧ (draws (forward x w).2 = draws w ∨ draws (forward x w).2 = S (draws w)).
Proof.
  destruct w as [[[m|] vr [a|] [c|] [n|]] log k]; unfold forward; run;
    repeat first
      [ progress simpl
      | match goal with
        | |- context [is_none ?v] => destruct (is_none v)
        | |- context [tensor_mul ?y ?v] => destruct (tensor_mul y v)
        | |- context [bounds ?v] => destruct (bounds v)
        | |- context [match ?o with Some _ => _ | None => _ end] =>
            is_var o; destruct o
        end ];
    auto.
Qed.

(** X2: the setters of one slot write that slot only.  Whether they return
    or raise, the model, the voltage ranges, the other effect slots, the
    warnings and the random draws are what they were. *)
Theorem setters_write_one_slot (v : pyval R) (w : world R) :
  (let w' := (set_amplification v w).2 in
   model (self w') = model (self w)
   ∧ voltage_ranges (self w') = voltage_ranges (self w)
   ∧ output_clipping (self w') = output_clipping (self w)
   ∧ noise (self w') = noise (self w)
   ∧ warned w' = warned w ∧ draws w' = draws w)
  ∧ (let w' := (set_output_clipping v w).2 in
     model (self w') = model (self w)
     ∧ voltage_ranges (self w') = voltage_ranges (self w)
     ∧ amplification (self w') = amplification (self w)
     ∧ noise (self w') = noise (self w)
     ∧ warned w' = warned w ∧ draws w' = draws w).
Proof.
  rewrite set_amplification_stores, set_output_clipping_stores.
  split; cases; auto 10.
Qed.

(** X3: the two setters commute: when setting the amplification and then
    the output clipping returns, setting them in the other order returns
    too and reaches the same state. *)
Theorem setters_commute (a c : pyval R) (w w1 w2 : world R) :
  set_amplification a w = (Ok tt, w1) →
  set_output_clipping c w1 = (Ok tt, w2) →
  ∃ u, set_output_clipping c w = (Ok tt, u)
       ∧ set_amplification a u = (Ok tt, w2).
Proof.
  rewrite !set_amplification_stores, !set_output_clipping_stores.
  destruct (stored amplification_path a (model (self w))) as [x|] eqn:Ea;
    [|discriminate].
  intros [= <-]. simpl.
  destruct (stored clipping_path c (model (self w))) as [y|] eqn:Ec;
    [|discriminate].
  intros [= <-]. eexists. split; [reflexivity|].
  rewrite set_amplification_stores. simpl. rewrite Ea. reflexivity.
Qed.

(** X4: configuring twice with the same arguments is configuring once: a
    call of [set_effects] that returns can be repeated on the state it
    reached, and returns that state again. *)
Theorem set_effects_is_idempotent a c n kw (w w1 : world R) :
  set_effects get_noise a c n kw w = (Ok tt, w1) →
  set_effects get_noise a c n kw w1 = (Ok tt, w1).
Proof.
  rewrite !set_effects_steps.
  destruct (stored amplification_path a (model (self w))) as [x|] eqn:Ea;
    [|discriminate].
  destruct (stored clipping_path c (model (self w))) as [y|] eqn:Ec;
    [|discriminate].
  destruct (get_noise n kw) as [z|] eqn:En; [|discriminate].
  intros [= <-]. simpl. rewrite Ea, Ec. reflexivity.
Qed.

(** ** Shapes and bounds of the output *)



(** X7: the setter takes any value other than "default" as it is, without
    checking it: a string is stored, and the forward pass that follows
    raises TypeError at the multiplication, before any noise is drawn. *)
Theorem set_amplification_does_not_validate (m : NeuralNetworkModel R)
    vr a0 c n log k x s :
  s ≠ "default" →
  set_amplification (PStr s) (configured m vr a0 c n log k)
  = (Ok tt, configured m vr (PStr s) c n log k)
  ∧ forward x (configured m vr (PStr s) c n log k)
    = (Raise TypeError, configured m vr (PStr s) c n log k).
Proof.
  intros Hs. split.
  - rewrite set_amplification_stores, stored_explicit; [reflexivity|].
    simpl. apply bool_decide_eq_false. exact Hs.
  - rewrite forward_stages. reflexivity.
Qed.

(** X8: a clipping value that cannot give two bounds is found out late.
    With a plain number as output clipping the forward pass raises
    TypeError, with a vector of fewer than two entries IndexError, and in
    both cases the noise model has already been called: one random draw is
    gone. *)
Theorem malformed_clipping_fails_after_noise (m : NeuralNetworkModel R)
    vr g nm log k x :
  (∀ r, forward x (configured m vr (PNum g) (PNum r) (Some nm) log k)
        = (Raise TypeError,
           configured m vr (PNum g) (PNum r) (Some nm) log (S k)))
  ∧ (∀ v, length v < 2 →
          forward x (configured m vr (PNum g) (PTensor (T1 v)) (Some nm) log k)
          = (Raise IndexError,
             configured m vr (PNum g) (PTensor (T1 v)) (Some nm) log (S k))).
Proof.
  split.
  - intros r. rewrite forward_stages. reflexivity.
  - intros v Hv. rewrite forward_stages. simpl.
    destruct v as [|v0 [|v1 v]]; simpl in *; try reflexivity. lia.
Qed.

(** ** Amplification by a vector of one entry *)

Lemma bc1_singleton (op : R → R → R) (u : list R) (g : R) :
  bc1 op u [g] = Ok (map (λ y, op y g) u).
Proof.
  unfold bc1. destruct (decide (length u = length [g])) as [E|E].
  - destruct u as [|a [|b u]]; try discriminate E. reflexivity.
  - destruct u as [|a [|b u]]; simpl in *; try reflexivity; congruence.
Qed.

Lemma rows_times_singleton (op : R → R → R) (rows : list (list R)) (g : R) :
  mapM (λ u, bc1 op u [g]) rows = Ok (map (map (λ y, op y g)) rows).
Proof.
  induction rows as [|u rows IH]; simpl; [reflexivity|].
  rewrite bc1_singleton. simpl. rewrite IH. reflexivity.
Qed.

(** X9: an amplification held as a vector of one entry, as the "default"
    path stores the driver amplification of the metadata, acts as that
    number: on a raw output of rank one or two the forward pass gives what
    it gives with the plain number as amplification. *)
Theorem singleton_amplification_is_scalar (m : NeuralNetworkModel R)
    vr c n log k x g :
  (∀ r, net m x ≠ T0 r) →
  (forward x (configured m vr (PTensor (T1 [g])) c n log k)).1
  = (forward x (configured m vr (PNum g) c n log k)).1.
Proof.
  intros Hrank. rewrite !forward_stages. simpl.
  assert (tensor_binop s_mul (net m x) (T1 [g])
          = Ok (tensor_map (λ y, s_mul y g) (net m x))) as ->.
  { destruct (net m x) as [r|v|rows]; simpl.
    - destruct (Hrank r). reflexivity.
    - rewrite bc1_singleton. reflexivity.
    - rewrite rows_times_singleton. reflexivity. }
  destruct n; simpl; destruct (is_none c); simpl; try reflexivity;
    destruct (bounds c); reflexivity.
Qed.

(** ** Loading *)

Lemma load_base_model_steps filename (w : world R) :
  load_base_model torch_load filename w =
  match torch_load filename with
  | Raise e => (Raise e, w)
  | Ok m =>
      match derived_ranges m with
      | Raise e => (Raise e, with_self (set_model m) w)
      | Ok v =>
          (Ok tt, with_self (λ s, set_voltage_ranges_attr v (set_model m s)) w)
      end
  end.
Proof.
  unfold load_base_model, _init_voltage_ranges, info_path, model_info,
    derived_ranges.
  run. destruct (torch_load filename) as [m|]; simpl; [|reflexivity].
  destruct (info m) as [i|] eqn:Hi; simpl; [|reflexivity].
  destruct (lookup_path i ["data_info"; "input_data"; "offset"]) as [o|];
    simpl; [|reflexivity].
  destruct (get_tensor_from_list o) as [offset|]; simpl; [|reflexivity].
  rewrite Hi. simpl.
  destruct (lookup_path i ["data_info"; "input_data"; "amplitude"]) as [a|];
    simpl; [|reflexivity].
  destruct (get_tensor_from_list a) as [amplitude|]; simpl; [|reflexivity].
  destruct (tensor_binop s_sub offset amplitude) as [d1|]; simpl;
    [|reflexivity].
  destruct (unsqueeze1 d1) as [mn|]; simpl; [|reflexivity].
  destruct (tensor_binop s_add offset amplitude) as [d2|]; simpl;
    [|reflexivity].
  destruct (unsqueeze1 d2) as [mx|]; simpl; [|reflexivity].
  destruct (cat1 mn mx); reflexivity.
Qed.

(** X10: loading is not all or nothing.  When [load_base_model] raises,
    either the file could not be read and the object is untouched, or the
    model has already been replaced while the voltage ranges, the effect
    slots and everything else are those of before the call. *)
Theorem load_base_model_failure_states filename e (w w' : world R) :
  load_base_model torch_load filename w = (Raise e, w') →
  (torch_load filename = Raise e ∧ w' = w)
  ∨ (∃ m, torch_load filename = Ok m
          ∧ derived_ranges m = Raise e
          ∧ w' = with_self (set_model m) w
          ∧ voltage_ranges (self w') = voltage_ranges (self w)).
Proof.
  rewrite load_base_model_steps.
  destruct (torch_load filename) as [m|e0].
  - destruct (derived_ranges m) as [v|e1] eqn:Hd; [discriminate|].
    intros [= <- <-]. right. exists m. auto.
  - intros [= <- <-]. left. auto.
Qed.

(** X14: loading keeps the configuration and can be repeated: a load that
    returns leaves the three effect slots, the warnings and the draws as
    they were, and loading the same file again changes nothing. *)
Theorem load_base_model_can_be_repeated filename (w w1 : world R) :
  load_base_model torch_load filename w = (Ok tt, w1) →
  load_base_model torch_load filename w1 = (Ok tt, w1)
  ∧ amplification (self w1) = amplification (self w)
  ∧ output_clipping (self w1) = output_clipping (self w)
  ∧ noise (self w1) = noise (self w)
  ∧ warned w1 = warned w ∧ draws w1 = draws w.
Proof.
  rewrite !load_base_model_steps.
  destruct (torch_load filename) as [m|]; [|discriminate].
  destruct (derived_ranges m) as [v|]; [|discriminate].
  intros [= <-]. auto 10.
Qed.

Lemma columns_of_maps (f g : R → R) (o : list R) :
  zip_with app (map (λ x, [x]) (map f o)) (map (λ x, [x]) (map g o))
  = map (λ oi, [f oi; g oi]) o.
Proof.
  induction o as [|oi o IH]; simpl; [reflexivity|]. f_equal. exact IH.
Qed.

(** X11: an amplitude given as one number is applied to every electrode:
    with offsets [o] the voltage ranges are the rows [o_i - r, o_i + r]. *)
Theorem scalar_amplitude_is_broadcast filename m i o r (w : world R) :
  torch_load filename = Ok m →
  info m = Some i →
  lookup_path i ["data_info"; "input_data"; "offset"] = Ok (PTensor (T1 o)) →
  lookup_path i ["data_info"; "input_data"; "amplitude"] = Ok (PNum r) →
  load_base_model torch_load filename w
  = (Ok tt,
     with_self (λ s, set_voltage_ranges_attr
                       (T2 (map (λ oi, [s_sub oi r; s_add oi r]) o))
                       (set_model m s)) w).
Proof.
  intros Hl Hi Ho Ha. rewrite load_base_model_steps, Hl.
  unfold derived_ranges. rewrite Hi, Ho. simpl. rewrite Ha. simpl.
  rewrite decide_True by (rewrite !length_map; reflexivity).
  rewrite columns_of_maps. reflexivity.
Qed.

(** X12: offsets and amplitudes of different lengths, neither of them of
    length one, stop the load with RuntimeError, after the model has been
    replaced. *)
Theorem mismatched_metadata_stops_the_load filename m i o a (w : world R) :
  torch_load filename = Ok m →
  info m = Some i →
  lookup_path i ["data_info"; "input_data"; "offset"] = Ok (PTensor (T1 o)) →
  lookup_path i ["data_info"; "input_data"; "amplitude"] = Ok (PTensor (T1 a)) →
  length o ≠ length a → length o ≠ 1 → length a ≠ 1 →
  load_base_model torch_load filename w
  = (Raise RuntimeError, with_self (set_model m) w).
Proof.
  intros Hl Hi Ho Ha Hne Ho1 Ha1. rewrite load_base_model_steps, Hl.
  unfold derived_ranges. rewrite Hi, Ho. simpl. rewrite Ha. simpl.
  unfold bc1. rewrite !decide_False by exact Hne.
  destruct o as [|o0 [|o1 o]]; destruct a as [|a0 [|a1 a]]; simpl in *;
    try reflexivity; congruence.
Qed.

(** ** Introspection and life cycle *)

(** X15: after a load from metadata whose offsets and amplitudes have one
    length, the electrode number reported is the number of rows of the
    voltage ranges. *)
Theorem electrode_number_counts_the_ranges filename m i o a (w : world R) :
  torch_load filename = Ok m →
  info m = Some i →
  lookup_path i ["data_info"; "input_data"; "offset"] = Ok (PTensor (T1 o)) →
  lookup_path i ["data_info"; "input_data"; "amplitude"] = Ok (PTensor (T1 a)) →
  length o = length a →
  ∃ w1 rows,
    load_base_model torch_load filename w = (Ok tt, w1)
    ∧ voltage_ranges (self w1) = Some (T2 rows)
    ∧ get_electrode_no w1 = (Ok (Some (length rows)), w1).
Proof.
  intros Hl Hi Ho Ha Hlen.
  rewrite (load_base_model_ranges torch_load w filename m i o a)
    by assumption.
  eexists. exists (ranges_of o a). split; [reflexivity|]. split; [reflexivity|].
  unfold get_electrode_no. run. rewrite Hi. simpl. rewrite Ho. simpl.
  unfold ranges_of. rewrite length_zip_with.
  replace (length o `min` length a) with (length o) by lia. reflexivity.
Qed.

(** X16: the warning and the None of [get_electrode_no] are for a model
    without a metadata record only.  When the record is there but the
    offsets cannot be reached in it, the call raises the error of the
    lookup and emits nothing. *)
Theorem get_electrode_no_raises_on_incomplete_metadata m i e (w : world R) :
  model (self w) = Some m →
  info m = Some i →
  lookup_path i ["data_info"; "input_data"; "offset"] = Raise e →
  get_electrode_no w = (Raise e, w).
Proof.
  intros Hm Hi Ho. unfold get_electrode_no. run. rewrite Hm, Hi. simpl.
  rewrite Ho. reflexivity.
Qed.

Lemma forward_reads_self_and_draws (x : tensor R) (w w' : world R) :
  self w = self w' → draws w = draws w' →
  (forward x w).1 = (forward x w').1.
Proof.
  destruct w as [s log k], w' as [s' log' k']. simpl. intros <- <-.
  destruct s as [[m|] vr [a|] [c|] [n|]]; unfold forward; run;
    repeat first
      [ progress simpl
      | match goal with
        | |- context [is_none ?v] => destruct (is_none v)
        | |- context [tensor_mul ?y ?v] => destruct (tensor_mul y v)
        | |- context [bounds ?v] => destruct (bounds v)
        | |- context [match ?o with Some _ => _ | None => _ end] =>
            is_var o; destruct o
        end ];
    reflexivity.
Qed.

(** X17: resetting, closing and asking for the electrode number do not
    touch the configuration: each leaves the object and the random draws as
    they were, so a forward pass after any of them gives what it gave
    before. *)
Theorem life_cycle_calls_keep_the_output (x : tensor R) (w : world R) :
  (self (reset w).2 = self w
   ∧ (forward x (reset w).2).1 = (forward x w).1)
  ∧ (self (close w).2 = self w
     ∧ (forward x (close w).2).1 = (forward x w).1)
  ∧ (self (get_electrode_no w).2 = self w
     ∧ (forward x (get_electrode_no w).2).1 = (forward x w).1).
Proof.
  assert (self (get_electrode_no w).2 = self w
          ∧ draws (get_electrode_no w).2 = draws w) as [Hs Hd].
  { unfold get_electrode_no. run.
    destruct (model (self w)) as [m|]; simpl; [|auto].
    destruct (info m) as [i|]; simpl; [|auto].
    destruct (lookup_path i _) as [o|]; simpl; [|auto].
    destruct (len o); auto. }
  repeat split; try reflexivity; try exact Hs;
    apply forward_reads_self_and_draws; auto.
Qed.

End Further.

(** ** Bounds over the rationals *)

Lemma clamp_within (lo hi x : Q) :
  (clamp lo hi x <= hi)%Q ∧ ((lo <= hi)%Q → (lo <= clamp lo hi x)%Q).
Proof.
  unfold clamp. simpl.
  destruct (Qle_bool lo x) eqn:E1.
  - destruct (Qle_bool x hi) eqn:E2.
    + apply Qle_bool_iff in E1, E2. auto.
    + apply Qle_bool_iff in E1. split; [apply Qle_refl|auto].
  - destruct (Qle_bool lo hi) eqn:E2.
    + apply Qle_bool_iff in E2. split; [exact E2|intros _; apply Qle_refl].
    + split; [apply Qle_refl|auto].
Qed.

Lemma elements_tensor_map {R : Type} (f : R → R) (t : tensor R) :
  elements (tensor_map f t) = map f (elements t).
Proof.
  destruct t as [r|v|m]; simpl; try reflexivity.
  induction m as [|r m IH]; simpl; [reflexivity|].
  rewrite map_app, IH. reflexivity.
Qed.

(** X6: with output clipping enabled, every entry of what a forward pass
    returns is at most the upper bound, and at least the lower bound when
    the bounds are in order, whatever the amplification and the noise. *)
Theorem forward_output_within_clipping (m : NeuralNetworkModel Q)
    vr a c n log k x y lo hi :
  bounds c = Ok (lo, hi) →
  (forward x (configured m vr a c n log k)).1 = Ok y →
  Forall (λ e, (e <= hi)%Q ∧ ((lo <= hi)%Q → (lo <= e)%Q)) (elements y).
Proof.
  intros Hb. rewrite forward_stages.
  assert (is_none c = false) as Hc by (destruct c; try reflexivity; discriminate).
  destruct (if is_none a then Ok (net m x) else tensor_mul (net m x) a)
    as [y1|]; simpl; [|discriminate].
  rewrite Hc, Hb. simpl. intros [= <-].
  unfold torch_clamp. rewrite elements_tensor_map.
  apply list.Forall_forall. intros e He.
  apply list_elem_of_fmap in He as [e0 [-> _]]. apply clamp_within.
Qed.

(** X13: when no amplitude of the metadata is negative, every row of the
    voltage ranges that a load derives is a pair with its first entry at
    most its second. *)
Theorem voltage_ranges_are_ordered
    (torch_load : string → result (NeuralNetworkModel Q))
    (w : world Q) filename m i o a :
  torch_load filename = Ok m →
  info m = Some i →
  lookup_path i ["data_info"; "input_data"; "offset"] = Ok (PTensor (T1 o)) →
  lookup_path i ["data_info"; "input_data"; "amplitude"] = Ok (PTensor (T1 a)) →
  length o = length a →
  Forall (λ ai, (0 <= ai)%Q) a →
  ∃ rows,
    load_base_model torch_load filename w
    = (Ok tt, with_self (λ s, set_voltage_ranges_attr (T2 rows) (set_model m s)) w)
    ∧ Forall (λ row, ∃ lo hi, row = [lo; hi] ∧ (lo <= hi)%Q) rows.
Proof.
  intros Hl Hi Ho Ha Hlen Hpos. exists (ranges_of o a). split.
  - apply (load_base_model_ranges torch_load w filename m i o a); assumption.
  - apply list.Forall_forall. intros row Hrow.
    apply list_elem_of_lookup in Hrow as [j Hj]. unfold ranges_of in Hj.
    rewrite lookup_zip_with in Hj.
    destruct (o !! j) as [oi|]; simpl in Hj; [|discriminate].
    destruct (a !! j) as [ai|] eqn:Haj; simpl in Hj; [|discriminate].
    injection Hj as <-. exists (oi - ai)%Q, (oi + ai)%Q. split; [reflexivity|].
    assert (0 <= ai)%Q as Hai.
    { rewrite list.Forall_forall in Hpos. apply Hpos.
      apply list_elem_of_lookup. eauto. }
    unfold Qminus. apply Qplus_le_r.
    apply Qle_trans with 0%Q; [|exact Hai].
    apply (Qopp_le_compat 0 ai Hai).
Qed.

(** * Properties of the directory helpers *)

Section DirectoryProperties.
Context {FS : Type} `{FileSystem FS}.


Lemma append_assoc (a b c : string) : (a +:+ b) +:+ c = a +:+ b +:+ c.
Proof.
  induction a as [|x a IH]; [reflexivity|].
  change (String x ((a +:+ b) +:+ c) = String x (a +:+ b +:+ c)).
  f_equal. exact IH.
Qed.

Lemma starts_with_sep_stamp (name stamp : string) :
  starts_with_sep (name +:+ "_" +:+ stamp) = starts_with_sep (name +:+ "_").
Proof. destruct name; reflexivity. Qed.

(** The joined path is a prefix, fixed by directory and name, followed by
    the time stamp. *)
Lemma path_join_stamp (path name : string) :
  ∃ prefix, ∀ stamp,
    path_join path (name +:+ "_" +:+ stamp) = prefix +:+ stamp.
Proof.
  unfold path_join.
  destruct (starts_with_sep (name +:+ "_")) eqn:E.
  - exists (name +:+ "_"). intros stamp.
    rewrite starts_with_sep_stamp, E, append_assoc. reflexivity.
  - destruct (bool_decide (path = "") || ends_with_sep path).
    + exists (path +:+ name +:+ "_"). intros stamp.
      rewrite starts_with_sep_stamp, E, !append_assoc. reflexivity.
    + exists (path +:+ "/" +:+ name +:+ "_"). intros stamp.
      rewrite starts_with_sep_stamp, E, !append_assoc. reflexivity.
Qed.

(** X19: the directory of a time stamp is told apart by the stamp: two
    calls of [create_directory_timestamp] for one parent directory and one
    name that return the same path were made at the same time stamp, and so
    two different stamps never share a directory. *)
Theorem timestamps_give_distinct_directories (t1 t2 path name : string)
    (o1 o2 : bool) (fs1 fs2 : FS) (r : string) :
  (create_directory_timestamp t1 path name o1 fs1).1 = Ok r →
  (create_directory_timestamp t2 path name o2 fs2).1 = Ok r →
  t1 = t2.
Proof.
  unfold create_directory_timestamp, create_directory.
  destruct (path_join_stamp path name) as [prefix Hp]. rewrite !Hp.
  intros H1 H2.
  assert (prefix +:+ t1 = r) as E1.
  { destruct (path_exists fs1 _); simpl in H1;
      [destruct o1; simpl in H1|];
      repeat match type of H1 with
             | context [let (_, _) := ?x in _] => destruct x as [[]]; simpl in H1
             | context [match ?x with _ => _ end] => destruct x as [[]]; simpl in H1
             end; congruence. }
  assert (prefix +:+ t2 = r) as E2.
  { destruct (path_exists fs2 _); simpl in H2;
      [destruct o2; simpl in H2|];
      repeat match type of H2 with
             | context [let (_, _) := ?x in _] => destruct x as [[]]; simpl in H2
             | context [match ?x with _ => _ end] => destruct x as [[]]; simpl in H2
             end; congruence. }
  apply (String.app_inj prefix). congruence.
Qed.

(** X20: a name that starts with the separator leaves the parent
    directory out: the directory is made at the name itself, whatever the
    parent given. *)
Theorem absolute_name_ignores_the_parent (now path name : string)
    (overwrite : bool) (fs : FS) :
  starts_with_sep name = true →
  create_directory_timestamp now path name overwrite fs
  = create_directory (name +:+ "_" +:+ now) overwrite fs.
Proof.
  intros Hn. unfold create_directory_timestamp, path_join.
  rewrite starts_with_sep_stamp.
  destruct name as [|c name]; [discriminate|]. simpl in Hn.
  change (starts_with_sep (String c name +:+ "_")) with (bool_decide (c = "/"%char)).
  rewrite Hn. reflexivity.
Qed.

End DirectoryProperties.

(** ** The further properties at concrete inputs *)

Lemma setters_commute_witness :
  ∃ u, set_output_clipping (PTensor (T1 [1; 2]%Q)) (Demo.tuned PNone PNone None)
       = (Ok tt, u)
       ∧ set_amplification (PStr "default") u
         = (Ok tt, Demo.tuned (PTensor (T1 [28.5%Q])) (PTensor (T1 [1; 2]%Q)) None).
Proof.
  apply (setters_commute (PStr "default") (PTensor (T1 [1; 2]%Q))
           (Demo.tuned PNone PNone None)
           (Demo.tuned (PTensor (T1 [28.5%Q])) PNone None)); reflexivity.
Defined.

Lemma set_effects_idempotent_witness :
  set_effects Demo.noise_factory (PNum 2%Q) (PStr "default") (PStr "gaussian")
    {[ "variance" := PNum 1%Q ]}
    (Demo.tuned (PNum 2%Q) (PTensor (T1 [-114; 114]%Q))
       (Some {| perturb := Demo.sampler 1 |}))
  = (Ok tt, Demo.tuned (PNum 2%Q) (PTensor (T1 [-114; 114]%Q))
              (Some {| perturb := Demo.sampler 1 |})).
Proof.
  apply (set_effects_is_idempotent Demo.noise_factory (PNum 2%Q)
           (PStr "default") (PStr "gaussian") {[ "variance" := PNum 1%Q ]}
           (Demo.tuned PNone PNone None)); reflexivity.
Defined.


Lemma forward_bounds_witness :
  Forall (λ e, (e <= 2)%Q ∧ ((1 <= 2)%Q → (1 <= e)%Q)) (elements (T1 [2%Q])).
Proof.
  apply (forward_output_within_clipping Demo.trained None (PNum 2%Q)
           (PTensor (T1 [1; 2]%Q)) None [] 0 Demo.input (T1 [2%Q]) 1%Q 2%Q);
    reflexivity.
Defined.

Lemma unvalidated_amplification_witness :
  set_amplification (PStr "loud") (Demo.tuned PNone PNone None)
  = (Ok tt, Demo.tuned (PStr "loud") PNone None)
  ∧ forward Demo.input (Demo.tuned (PStr "loud") PNone None)
    = (Raise TypeError, Demo.tuned (PStr "loud") PNone None).
Proof.
  apply (set_amplification_does_not_validate Demo.trained None PNone PNone
           None [] 0 Demo.input "loud"); discriminate.
Defined.

Lemma malformed_clipping_witness :
  forward Demo.input
    (configured Demo.trained None (PNum 2%Q) (PTensor (T1 [1%Q]))
       (Some {| perturb := Demo.sampler 1 |}) [] 0)
  = (Raise IndexError,
     configured Demo.trained None (PNum 2%Q) (PTensor (T1 [1%Q]))
       (Some {| perturb := Demo.sampler 1 |}) [] 1).
Proof.
  apply (proj2 (malformed_clipping_fails_after_noise Demo.trained None 2%Q
                  {| perturb := Demo.sampler 1 |} [] 0 Demo.input) [1%Q]).
  simpl. lia.
Defined.

Lemma singleton_amplification_witness :
  (forward Demo.input
     (Demo.tuned (PTensor (T1 [28.5%Q])) (PTensor (T1 [1; 2]%Q)) None)).1
  = (forward Demo.input
       (Demo.tuned (PNum 28.5%Q) (PTensor (T1 [1; 2]%Q)) None)).1.
Proof.
  apply (singleton_amplification_is_scalar Demo.trained None
           (PTensor (T1 [1; 2]%Q)) None [] 0 Demo.input 28.5%Q).
  intros r. discriminate.
Defined.

Lemma load_failure_witness :
  (Cases.disk "ragged.pt" = Raise RuntimeError
   ∧ with_self (set_model Cases.ragged) Demo.fresh = Demo.fresh)
  ∨ (∃ m, Cases.disk "ragged.pt" = Ok m
          ∧ derived_ranges m = Raise RuntimeError
          ∧ with_self (set_model Cases.ragged) Demo.fresh
            = with_self (set_model m) Demo.fresh
          ∧ voltage_ranges (self (with_self (set_model Cases.ragged) Demo.fresh))
            = voltage_ranges (self Demo.fresh)).
Proof.
  apply (load_base_model_failure_states Cases.disk "ragged.pt" RuntimeError
           Demo.fresh (with_self (set_model Cases.ragged) Demo.fresh)).
  reflexivity.
Defined.

Lemma scalar_amplitude_witness :
  load_base_model Cases.disk "uniform.pt" Demo.fresh
  = (Ok tt,
     with_self (λ s, set_voltage_ranges_attr
                       (T2 (map (λ oi, [s_sub oi 0.25%Q; s_add oi 0.25%Q])
                              [-0.5; 0; 0.5]%Q))
                       (set_model Cases.uniform s)) Demo.fresh).
Proof.
  eapply (scalar_amplitude_is_broadcast Cases.disk "uniform.pt" Cases.uniform
            _ [-0.5; 0; 0.5]%Q 0.25%Q Demo.fresh); reflexivity.
Defined.

Lemma mismatched_metadata_witness :
  load_base_model Cases.disk "ragged.pt" Demo.fresh
  = (Raise RuntimeError, with_self (set_model Cases.ragged) Demo.fresh).
Proof.
  eapply (mismatched_metadata_stops_the_load Cases.disk "ragged.pt"
            Cases.ragged _ [-0.5; 0; 0.5]%Q [0.25; 0.25]%Q Demo.fresh);
    try reflexivity; simpl; lia.
Defined.

Lemma ordered_ranges_witness :
  ∃ rows,
    load_base_model Demo.disk "model.pt" Demo.fresh
    = (Ok tt, with_self (λ s, set_voltage_ranges_attr (T2 rows)
                                (set_model Demo.trained s)) Demo.fresh)
    ∧ Forall (λ row, ∃ lo hi, row = [lo; hi] ∧ (lo <= hi)%Q) rows.
Proof.
  eapply (voltage_ranges_are_ordered Demo.disk Demo.fresh "model.pt"
            Demo.trained _ Demo.offsets Demo.amplitudes);
    try reflexivity.
  repeat (constructor; [vm_compute; discriminate|]). constructor.
Defined.

Lemma repeated_load_witness :
  load_base_model Demo.disk "model.pt"
    (load_base_model Demo.disk "model.pt" (Demo.tuned (PNum 2%Q) PNone None)).2
  = (Ok tt,
     (load_base_model Demo.disk "model.pt" (Demo.tuned (PNum 2%Q) PNone None)).2)
  ∧ amplification
      (self (load_base_model Demo.disk "model.pt"
               (Demo.tuned (PNum 2%Q) PNone None)).2)
    = amplification (self (Demo.tuned (PNum 2%Q) PNone None)).
Proof.
  destruct (load_base_model_can_be_repeated Demo.disk "model.pt"
              (Demo.tuned (PNum 2%Q) PNone None)
              (load_base_model Demo.disk "model.pt"
                 (Demo.tuned (PNum 2%Q) PNone None)).2 eq_refl)
    as (H1 & H2 & _).
  exact (conj H1 H2).
Defined.

Lemma electrode_number_witness :
  ∃ w1 rows,
    load_base_model Demo.disk "model.pt" Demo.fresh = (Ok tt, w1)
    ∧ voltage_ranges (self w1) = Some (T2 rows)
    ∧ get_electrode_no w1 = (Ok (Some (length rows)), w1).
Proof.
  eapply (electrode_number_counts_the_ranges Demo.disk "model.pt" Demo.trained
            _ Demo.offsets Demo.amplitudes Demo.fresh); reflexivity.
Defined.

Lemma incomplete_metadata_witness :
  get_electrode_no (configured Cases.hollow None PNone PNone None [] 0)
  = (Raise (KeyError "data_info"),
     configured Cases.hollow None PNone PNone None [] 0).
Proof.
  apply (get_electrode_no_raises_on_incomplete_metadata Cases.hollow (PDict ∅)
           (KeyError "data_info")); reflexivity.
Defined.


Lemma timestamp_witness :
  "2026_01_31_120000" = "2026_01_31_120000".
Proof.
  apply (timestamps_give_distinct_directories (FS := gset string)
           "2026_01_31_120000" "2026_01_31_120000" "runs" "exp" false true
           ∅ {[ "runs/exp_2026_01_31_120000" ]}
           "runs/exp_2026_01_31_120000"); vm_compute; reflexivity.
Defined.

Lemma absolute_name_witness :
  create_directory_timestamp "2026_01_31_120000" "runs" "/tmp/exp" false
    (∅ : gset string)
  = create_directory "/tmp/exp_2026_01_31_120000" false (∅ : gset string).
Proof.
  apply (absolute_name_ignores_the_parent (FS := gset string)
           "2026_01_31_120000" "runs" "/tmp/exp" false ∅).
  reflexivity.
Defined.
